(** * Post/Media API service (function_app.py): model and properties

    The seven HTTP handlers of [function_app.py] are embedded as computations
    in a small state-and-exception monad over a [World] that holds the two
    Cosmos containers, the blob container, a schedule of store faults and
    the trace of the store calls issued so far.  The environment variables
    the handlers read are taken to be set; logging is left out. *)

From Stdlib Require Import ZArith List Bool Sorted Permutation OrderedTypeEx.
From stdpp Require Import gmap strings list fin_maps sorting.
Import ListNotations.

Set Warnings "-register-all".

Open Scope string_scope.
Open Scope Z_scope.
Open Scope list_scope.

(** ** Python values *)

(** What [json.loads] produces and [json.dumps] consumes.  Python's [None]
    is [JNull]; only the zero test of a number matters to the handlers, so
    numbers are integers. *)
Inductive json : Type :=
  | JNull
  | JBool (b : bool)
  | JNum (n : Z)
  | JStr (s : string)
  | JArr (items : list json)
  | JObj (fields : list (string * json)).

(** A Python [dict] with string keys, as its items. *)
Abbreviation dict := (list (string * json)).

(** [d.get(k)] on a [dict] or a [MultiDict]: the binding of [k], if any. *)
Fixpoint assoc_get {V : Type} (k : string) (d : list (string * V)) : option V :=
  match d with
  | [] => None
  | (k', v) :: rest => if String.eqb k k' then Some v else assoc_get k rest
  end.

(** [d.get(k, default)]. *)
Definition dict_get (k : string) (default : json) (d : dict) : json :=
  match assoc_get k d with
  | Some v => v
  | None => default
  end.

(** Python truth value of a JSON value. *)
Definition py_truthy (v : json) : bool :=
  match v with
  | JNull => false
  | JBool b => b
  | JNum n => negb (n =? 0)
  | JStr s => negb (String.eqb s "")
  | JArr items => match items with [] => false | _ => true end
  | JObj fields => match fields with [] => false | _ => true end
  end.

(** The value of a request parameter that passes [if not x] (it is neither
    [None] nor the empty string). *)
Definition py_nonempty (x : option string) : option string :=
  match x with
  | Some s => if String.eqb s "" then None else Some s
  | None => None
  end.

(** The characters of a string, each as a one-character string. *)
Fixpoint chars (s : string) : list json :=
  match s with
  | EmptyString => []
  | String c rest => JStr (String c EmptyString) :: chars rest
  end.

(** The elements a [for] loop visits; [None] where Python raises
    [TypeError] (value not iterable). *)
Definition py_iter (v : json) : option (list json) :=
  match v with
  | JArr items => Some items
  | JStr s => Some (chars s)
  | JObj fields => Some (map (fun kv => JStr (fst kv)) fields)
  | _ => None
  end.

(** Equality of partition-key and id values; Cosmos keys are scalars. *)
Definition scalar_eqb (a b : json) : bool :=
  match a, b with
  | JNull, JNull => true
  | JBool x, JBool y => Bool.eqb x y
  | JNum x, JNum y => x =? y
  | JStr x, JStr y => String.eqb x y
  | _, _ => false
  end.

(** ** Requests and responses *)

(** The uploaded file part: [file.filename], [file.content_type] and the
    bytes [file.stream.read()] returns. *)
Record FileStorage : Type := {
  filename : string;
  content_type : string;
  stream : list Byte.byte
}.

(** Modelled from the spec: the truth value of the file part of the hosting
    runtime.  The part passes [if not file] when it is present and its
    filename is not empty ([FileStorage.__bool__] is [bool(self.filename)]). *)
Definition py_file (x : option FileStorage) : option FileStorage :=
  match x with
  | Some f => if String.eqb (filename f) "" then None else Some f
  | None => None
  end.

(** Modelled from the spec: the request object of the hosting runtime, as
    [req.params], [req.form], [req.files] and the result of
    [req.get_json()] ([None] when it raises [ValueError]). *)
Record HttpRequest : Type := {
  params : list (string * string);
  form : list (string * string);
  files : list (string * FileStorage);
  json_body : option json
}.

(** Response bodies: none, a literal text, an f-string made of a literal
    prefix and a formatted value, or [json.dumps] of a value (with
    mimetype application/json). *)
Inductive Body : Type :=
  | NoBody
  | Text (s : string)
  | FText (pre : string) (v : json)
  | Json (v : json).

Record HttpResponse : Type := {
  status_code : Z;
  body : Body
}.

(** ** Stores *)

(** The container [get_cosmos_container(name)] gives a client for, by
    the name of the environment variable that designates it. *)
Inductive Container : Type := COSMOS_MEDIA_CONTAINER | COSMOS_POST_CONTAINER.

Record Blob : Type := {
  blob_data : list Byte.byte;
  blob_content_type : string
}.

(** One entry per call that reaches the Blob Store or the Document Store. *)
Inductive StoreCall : Type :=
  | upload_blob_call (name : string)
  | delete_blob_call (name : string)
  | upsert_item_call (c : Container) (doc : dict)
  | create_item_call (c : Container) (doc : dict)
  | read_item_call (c : Container) (item : string) (pk : json)
  | delete_item_call (c : Container) (item : string) (pk : json)
  | query_items_call (c : Container) (partition : option string).

(** The two containers hold documents keyed by (id, partition key); the
    partition key of a document is its [userId].  [faults] schedules the
    dependency failures: each store call consumes the head, and fails
    without effect when it is [true].  [trace] lists the store calls made,
    oldest first. *)
Record World : Type := {
  media_docs : list dict;
  post_docs : list dict;
  blobs : gmap string Blob;
  faults : list bool;
  trace : list StoreCall
}.

Definition container (c : Container) (w : World) : list dict :=
  match c with
  | COSMOS_MEDIA_CONTAINER => media_docs w
  | COSMOS_POST_CONTAINER => post_docs w
  end.

Definition set_container (c : Container) (docs : list dict) (w : World) : World :=
  match c with
  | COSMOS_MEDIA_CONTAINER =>
      {| media_docs := docs; post_docs := post_docs w; blobs := blobs w;
         faults := faults w; trace := trace w |}
  | COSMOS_POST_CONTAINER =>
      {| media_docs := media_docs w; post_docs := docs; blobs := blobs w;
         faults := faults w; trace := trace w |}
  end.

Definition set_blobs (b : gmap string Blob) (w : World) : World :=
  {| media_docs := media_docs w; post_docs := post_docs w; blobs := b;
     faults := faults w; trace := trace w |}.

Definition set_faults (fs : list bool) (w : World) : World :=
  {| media_docs := media_docs w; post_docs := post_docs w; blobs := blobs w;
     faults := fs; trace := trace w |}.

Definition log_call (c : StoreCall) (w : World) : World :=
  {| media_docs := media_docs w; post_docs := post_docs w; blobs := blobs w;
     faults := faults w; trace := trace w ++ [c] |}.

(** ** The monad of handlers *)

Inductive exn : Type :=
  | AttributeError
  | TypeError
  | KeyError
  | ResourceNotFoundError
  | ResourceExistsError
  | ServiceError.

Inductive result (A : Type) : Type :=
  | Ok (a : A)
  | Raise (e : exn).
Arguments Ok {A} a.
Arguments Raise {A} e.

Definition M (A : Type) : Type := World -> result A * World.

Definition ret {A} (a : A) : M A := fun w => (Ok a, w).

Definition raise {A} (e : exn) : M A := fun w => (Raise e, w).

Definition bind {A B} (m : M A) (k : A -> M B) : M B :=
  fun w =>
    match m w with
    | (Ok a, w') => k a w'
    | (Raise e, w') => (Raise e, w')
    end.

Notation "x <- m ;; k" := (bind m (fun x => k))
  (at level 100, m at next level, right associativity).
Notation "m ;;; k" := (bind m (fun _ => k))
  (at level 100, right associativity).

(** [try: m  except Exception: return resp]: the value of [m], or the
    response the handler returns at once. *)
Definition try_except {A} (m : M A) (resp : HttpResponse) : M (HttpResponse + A) :=
  fun w =>
    match m w with
    | (Ok a, w') => (Ok (inr a), w')
    | (Raise _, w') => (Ok (inl resp), w')
    end.

(** What the hosting runtime sends: the handler's response, or a generic
    500 for an exception that escapes the handler. *)
Inductive Outcome : Type :=
  | Responded (r : HttpResponse)
  | Unhandled (e : exn).

Definition serve (h : M HttpResponse) (w : World) : Outcome * World :=
  match h w with
  | (Ok r, w') => (Responded r, w')
  | (Raise e, w') => (Unhandled e, w')
  end.

Definition status_of (o : Outcome) : Z :=
  match o with
  | Responded r => status_code r
  | Unhandled _ => 500
  end.

(** ** Store operations *)

(** Modelled from the spec: a call that reaches the Blob Store or the
    Document Store (external services); it is logged, and it fails as a
    dependency failure when the schedule says so. *)
Definition store_call (c : StoreCall) : M unit :=
  fun w =>
    match faults w with
    | true :: fs => (Raise ServiceError, set_faults fs (log_call c w))
    | false :: fs => (Ok tt, set_faults fs (log_call c w))
    | [] => (Ok tt, log_call c w)
    end.

Definition get_world : M World := fun w => (Ok w, w).

Definition modify (f : World -> World) : M unit := fun w => (Ok tt, f w).

(** The document with id [item] in partition [pk]. *)
Definition has_key (item : string) (pk : json) (doc : dict) : bool :=
  match assoc_get "id" doc, assoc_get "userId" doc with
  | Some i, Some u => scalar_eqb i (JStr item) && scalar_eqb u pk
  | _, _ => false
  end.

Definition lookup_doc (item : string) (pk : json) (docs : list dict) : option dict :=
  List.find (has_key item pk) docs.

Definition remove_doc (item : string) (pk : json) (docs : list dict) : list dict :=
  List.filter (fun d => negb (has_key item pk d)) docs.

(** Modelled from the spec: the Document Store's point read by id and
    partition, [container.read_item(item=.., partition_key=..)]; an [item]
    that is not a string names no document. *)
Definition read_item (c : Container) (item pk : json) : M dict :=
  match item with
  | JStr i =>
      store_call (read_item_call c i pk) ;;;
      w <- get_world ;;
      match lookup_doc i pk (container c w) with
      | Some doc => ret doc
      | None => raise ResourceNotFoundError
      end
  | _ => raise TypeError
  end.

(** Modelled from the spec: the Document Store's point delete by id and
    partition, [container.delete_item(item=.., partition_key=..)]. *)
Definition delete_item (c : Container) (item : string) (pk : json) : M unit :=
  store_call (delete_item_call c item pk) ;;;
  w <- get_world ;;
  match lookup_doc item pk (container c w) with
  | Some _ => modify (set_container c (remove_doc item pk (container c w)))
  | None => raise ResourceNotFoundError
  end.

(** The key under which a document is stored. *)
Definition doc_key (doc : dict) : option (string * json) :=
  match assoc_get "id" doc, assoc_get "userId" doc with
  | Some (JStr i), Some u => Some (i, u)
  | _, _ => None
  end.

(** Modelled from the spec: the Document Store's upsert,
    [container.upsert_item(doc)]; it replaces the document of the same key. *)
Definition upsert_item (c : Container) (doc : dict) : M unit :=
  store_call (upsert_item_call c doc) ;;;
  w <- get_world ;;
  match doc_key doc with
  | Some (i, u) => modify (set_container c (remove_doc i u (container c w) ++ [doc]))
  | None => raise TypeError
  end.

(** Modelled from the spec: the Document Store's point create,
    [container.create_item(body=doc)]; it refuses a key already present. *)
Definition create_item (c : Container) (doc : dict) : M unit :=
  store_call (create_item_call c doc) ;;;
  w <- get_world ;;
  match doc_key doc with
  | Some (i, u) =>
      match lookup_doc i u (container c w) with
      | Some _ => raise ResourceExistsError
      | None => modify (set_container c (container c w ++ [doc]))
      end
  | None => raise TypeError
  end.

(** Modelled from the spec: the Blob Store's put with overwrite and
    content type,
    [blob_client.upload_blob(data, overwrite=True, content_settings=..)]. *)
Definition upload_blob (name : string) (data : list Byte.byte) (ct : string) : M unit :=
  store_call (upload_blob_call name) ;;;
  w <- get_world ;;
  modify (set_blobs (<[name := {| blob_data := data; blob_content_type := ct |}]> (blobs w))).

(** Modelled from the spec: the Blob Store's delete by key,
    [container_client.get_blob_client(name).delete_blob()]; a missing blob
    and a name that is not a string are refused. *)
Definition delete_blob (name : json) : M unit :=
  match name with
  | JStr n =>
      store_call (delete_blob_call n) ;;;
      w <- get_world ;;
      match blobs w !! n with
      | Some _ => modify (set_blobs (delete n (blobs w)))
      | None => raise ResourceNotFoundError
      end
  | _ => raise TypeError
  end.

(** ** Queries *)

(** Modelled from the spec: the order of the values of an [ORDER BY]
    field in the Document Store, by type (undefined, null, boolean, number,
    string, array, object), then by value; the timestamps written by
    [isoformat()] compare as strings. *)
Definition type_rank (v : option json) : nat :=
  match v with
  | None => 0
  | Some JNull => 1
  | Some (JBool _) => 2
  | Some (JNum _) => 3
  | Some (JStr _) => 4
  | Some (JArr _) => 5
  | Some (JObj _) => 6
  end%nat.

Definition key_leb (a b : option json) : bool :=
  if (type_rank a <? type_rank b)%nat then true
  else if (type_rank b <? type_rank a)%nat then false
  else match a, b with
       | Some (JBool x), Some (JBool y) => implb x y
       | Some (JNum x), Some (JNum y) => x <=? y
       | Some (JStr x), Some (JStr y) => String.leb x y
       | _, _ => true
       end.

(** [a] may come before [b] under [ORDER BY c.field DESC]. *)
Definition desc (field : string) (a b : dict) : Prop :=
  key_leb (assoc_get field b) (assoc_get field a) = true.

#[global] Instance desc_dec (field : string) : RelDecision (desc field) :=
  fun a b => decide (key_leb (assoc_get field b) (assoc_get field a) = true).

(** [WHERE c.userId = @userId]; no clause selects every document. *)
Definition where_userId (user_id : option string) (docs : list dict) : list dict :=
  match user_id with
  | Some u =>
      List.filter
        (fun d => match assoc_get "userId" d with
                  | Some v => scalar_eqb v (JStr u)
                  | None => false
                  end) docs
  | None => docs
  end.

(** Modelled from the spec: the Document Store's parameterized query with
    ordering, [list(container.query_items(query=..))], for the queries of
    this file:
    [SELECT * FROM c [WHERE c.userId = @userId] ORDER BY c.field DESC]. *)
Definition query_items (c : Container) (user_id : option string) (field : string)
  : M (list dict) :=
  store_call (query_items_call c user_id) ;;;
  w <- get_world ;;
  ret (merge_sort (desc field) (where_userId user_id (container c w))).

(** ** Handlers *)

Definition http_response (status : Z) (b : Body) : HttpResponse :=
  {| status_code := status; body := b |}.

(** [d[k]]. *)
Definition subscript (k : string) (d : dict) : M json :=
  match assoc_get k d with
  | Some v => ret v
  | None => raise KeyError
  end.

(** [uploadMedia]; [media_id] is the value of [str(uuid.uuid4())] and
    [now] that of [datetime.now(timezone.utc).isoformat()]. *)
Definition uploadMedia (media_id now : string) (req : HttpRequest) : M HttpResponse :=
  match py_nonempty (assoc_get "userId" (form req)),
        py_file (assoc_get "file" (files req)) with
  | Some user_id, Some file =>
      let file_name := filename file in
      let content_type := content_type file in
      let blob_name := user_id +:+ "/" +:+ media_id +:+ "-" +:+ file_name in
      let data := stream file in
      upload_blob blob_name data content_type ;;;
      let doc :=
        [ ("id", JStr media_id);
          ("userId", JStr user_id);
          ("fileName", JStr file_name);
          ("contentType", JStr content_type);
          ("sizeBytes", JNum (Z.of_nat (List.length data)));
          ("blobName", JStr blob_name);
          ("uploadedAt", JStr now) ] in
      upsert_item COSMOS_MEDIA_CONTAINER doc ;;;
      ret (http_response 201 (Json (JObj doc)))
  | _, _ => ret (http_response 400 (Text "Missing userId or file"))
  end.

(** The [for m in media] loop of [createPost]: the response of an early
    [return], or the list [media_refs] when the loop runs to its end. *)
Fixpoint load_media (user_id : json) (media : list json) (media_refs : list json)
  : M (HttpResponse + list json) :=
  match media with
  | [] => ret (inr media_refs)
  | m :: rest =>
      r <- try_except (read_item COSMOS_MEDIA_CONTAINER m user_id)
             (http_response 404 (FText "media not found or not owned by user: " m)) ;;
      match r with
      | inl resp => ret (inl resp)
      | inr media_doc =>
          i <- subscript "id" media_doc ;;
          b <- subscript "blobName" media_doc ;;
          load_media user_id rest
            (media_refs ++ [JObj [ ("mediaId", i);
                                   ("blobName", b);
                                   ("contentType", dict_get "contentType" JNull media_doc) ]])
      end
  end.

(** The document [createPost] writes. *)
Definition post_doc (post_id : string) (user_id title caption : json)
    (media_refs : list json) (now : string) : dict :=
  [ ("id", JStr post_id);
    ("userId", user_id);
    ("title", title);
    ("caption", caption);
    ("media", JArr media_refs);
    ("createdAt", JStr now) ].

(** [createPost]; [post_id] and [now] as in [uploadMedia].  A body that
    is not an object has no [get] method. *)
Definition createPost (post_id now : string) (req : HttpRequest) : M HttpResponse :=
  match json_body req with
  | None => ret (http_response 400 (Text "Invalid JSON body"))
  | Some (JObj body) =>
      let user_id := dict_get "userId" JNull body in
      let title := dict_get "title" JNull body in
      let caption := dict_get "caption" (JStr "") body in
      let media := dict_get "media" (JArr []) body in
      r <- (if py_truthy media then
              match py_iter media with
              | Some ms => load_media user_id ms []
              | None => raise TypeError
              end
            else ret (inr [])) ;;
      match r with
      | inl resp => ret resp
      | inr media_refs =>
          let doc := post_doc post_id user_id title caption media_refs now in
          create_item COSMOS_POST_CONTAINER doc ;;;
          ret (http_response 201 (Json (JObj doc)))
      end
  | Some _ => raise AttributeError
  end.

Definition getPosts (req : HttpRequest) : M HttpResponse :=
  match py_nonempty (assoc_get "userId" (params req)) with
  | Some user_id =>
      items <- query_items COSMOS_POST_CONTAINER (Some user_id) "createdAt" ;;
      ret (http_response 200 (Json (JArr (map JObj items))))
  | None => ret (http_response 400 (Text "Missing userId"))
  end.

Definition getAllPosts (req : HttpRequest) : M HttpResponse :=
  items <- query_items COSMOS_POST_CONTAINER None "createdAt" ;;
  ret (http_response 200 (Json (JArr (map JObj items)))).

Definition getUserMedia (req : HttpRequest) : M HttpResponse :=
  match py_nonempty (assoc_get "userId" (params req)) with
  | Some user_id =>
      items <- query_items COSMOS_MEDIA_CONTAINER (Some user_id) "uploadedAt" ;;
      ret (http_response 200 (Json (JArr (map JObj items))))
  | None => ret (http_response 400 (Text "Missing userId"))
  end.

Definition deletePost (req : HttpRequest) : M HttpResponse :=
  match py_nonempty (assoc_get "userId" (params req)),
        py_nonempty (assoc_get "postId" (params req)) with
  | Some user_id, Some post_id =>
      r <- try_except (delete_item COSMOS_POST_CONTAINER post_id (JStr user_id))
             (http_response 404 (Text "Post not found")) ;;
      match r with
      | inl resp => ret resp
      | inr _ => ret (http_response 204 NoBody)
      end
  | _, _ => ret (http_response 400 (Text "Missing userId or postId"))
  end.

Definition deleteMedia (req : HttpRequest) : M HttpResponse :=
  match py_nonempty (assoc_get "userId" (params req)),
        py_nonempty (assoc_get "mediaId" (params req)) with
  | Some user_id, Some media_id =>
      r <- try_except (read_item COSMOS_MEDIA_CONTAINER (JStr media_id) (JStr user_id))
             (http_response 404 (Text "media not found")) ;;
      match r with
      | inl resp => ret resp
      | inr media_doc =>
          let blob_name := dict_get "blobName" JNull media_doc in
          if negb (py_truthy blob_name) then
            ret (http_response 500 (Text "media record missing blobname"))
          else
            r <- try_except (delete_blob blob_name)
                   (http_response 500 (Text "failed to delete media blob")) ;;
            match r with
            | inl resp => ret resp
            | inr _ =>
                r <- try_except (delete_item COSMOS_MEDIA_CONTAINER media_id (JStr user_id))
                       (http_response 500 (Text "failed to delete cosmos document")) ;;
                match r with
                | inl resp => ret resp
                | inr _ => ret (http_response 204 NoBody)
                end
            end
      end
  | _, _ => ret (http_response 400 (Text "missing userId or mediaId"))
  end.

(** ** Vocabulary of the properties *)

(** The media document with id [m] in the partition of [user_id]: present
    when [m] names a MediaItem owned by that user. *)
Definition owned (w : World) (user_id m : json) : option dict :=
  match m with
  | JStr i => lookup_doc i user_id (media_docs w)
  | _ => None
  end.

(** The MediaRef that copies the fields of a media document. *)
Definition media_ref (media_doc : dict) : json :=
  JObj [ ("mediaId", dict_get "id" JNull media_doc);
         ("blobName", dict_get "blobName" JNull media_doc);
         ("contentType", dict_get "contentType" JNull media_doc) ].

(** [m] names an owned media document [d] that carries a [blobName]. *)
Definition readable (w : World) (user_id m : json) (d : dict) : Prop :=
  owned w user_id m = Some d /\ assoc_get "blobName" d <> None.

(** Some id of [ms] names an owned media document without [blobName]. *)
Definition no_blobName (w : World) (user_id : json) (ms : list json) : Prop :=
  exists m d, In m ms /\ owned w user_id m = Some d /\ assoc_get "blobName" d = None.

(** The last phase of [createPost]: write the post, answer 201. *)
Definition write_post (post_id now : string) (body : dict)
    (r : HttpResponse + list json) : M HttpResponse :=
  match r with
  | inl resp => ret resp
  | inr media_refs =>
      let doc := post_doc post_id (dict_get "userId" JNull body)
                   (dict_get "title" JNull body)
                   (dict_get "caption" (JStr "") body) media_refs now in
      create_item COSMOS_POST_CONTAINER doc ;;;
      ret (http_response 201 (Json (JObj doc)))
  end.

(** A request parameter that is absent, or present with the empty string
    as its value. *)
Definition absent_or_empty (x : option string) : Prop := x = None \/ x = Some "".

(** ** Store calls, step by step *)

Definition no_fault (w : World) : Prop := Forall (fun b => b = false) (faults w).

(** The next store call fails. *)
Definition next_fault (w : World) : bool := hd false (faults w).

(** The world once a store call has been issued. *)
Definition after_call (c : StoreCall) (w : World) : World :=
  set_faults (tl (faults w)) (log_call c w).

(** Two worlds hold the same documents and blobs. *)
Definition same_stores (w w' : World) : Prop :=
  media_docs w' = media_docs w /\ post_docs w' = post_docs w /\ blobs w' = blobs w.

(** ** Sample data *)

Definition empty_world : World :=
  {| media_docs := []; post_docs := []; blobs := ∅; faults := []; trace := [] |}.

Definition GET (ps : list (string * string)) : HttpRequest :=
  {| params := ps; form := []; files := []; json_body := None |}.

Definition POST_json (b : json) : HttpRequest :=
  {| params := []; form := []; files := []; json_body := Some b |}.

Definition a_png : FileStorage :=
  {| filename := "a.png"; content_type := "image/png"; stream := [Byte.x58] |}.

Definition upload_u1 : HttpRequest :=
  {| params := []; form := [("userId", "u1")]; files := [("file", a_png)];
     json_body := None |}.

(** A file part that carries no filename. *)
Definition no_name : FileStorage :=
  {| filename := ""; content_type := "image/png"; stream := [Byte.x58] |}.

Definition upload_no_name : HttpRequest :=
  {| params := []; form := [("userId", "u1")]; files := [("file", no_name)];
     json_body := None |}.

(** The media document [uploadMedia] writes for [a.png] of user u1. *)
Definition media_m1 : dict :=
  [ ("id", JStr "m1");
    ("userId", JStr "u1");
    ("fileName", JStr "a.png");
    ("contentType", JStr "image/png");
    ("sizeBytes", JNum 1);
    ("blobName", JStr "u1/m1-a.png");
    ("uploadedAt", JStr "2024-05-01T10:00:00+00:00") ].

(** The stores after that upload. *)
Definition world_u1 : World :=
  {| media_docs := [media_m1]; post_docs := [];
     blobs := {[ "u1/m1-a.png" := {| blob_data := [Byte.x58];
                                     blob_content_type := "image/png" |} ]};
     faults := []; trace := [] |}.

(** A partially written media record: no [blobName]. *)
Definition media_m0 : dict := [ ("id", JStr "m0"); ("userId", JStr "u1") ].

Definition world_m0 : World :=
  {| media_docs := [media_m0]; post_docs := []; blobs := ∅;
     faults := []; trace := [] |}.

(** One post of user u1, and a Document Store that fails its next call. *)
Definition post_p1 : dict :=
  post_doc "p1" (JStr "u1") (JStr "T") (JStr "") [] "2024-05-02T09:00:00+00:00".

Definition world_p1_failing : World :=
  {| media_docs := []; post_docs := [post_p1]; blobs := ∅;
     faults := [true]; trace := [] |}.

Definition delete_m1 : HttpRequest := GET [("userId", "u1"); ("mediaId", "m1")].

Definition delete_p1 : HttpRequest := GET [("userId", "u1"); ("postId", "p1")].

(** Two posts of u1 and one of u2, stored out of order. *)
Definition world_posts : World :=
  {| media_docs := [];
     post_docs :=
       [ post_doc "p1" (JStr "u1") (JStr "first") (JStr "") [] "2024-05-01T08:00:00+00:00";
         post_doc "p2" (JStr "u2") (JStr "other") (JStr "") [] "2024-05-02T08:00:00+00:00";
         post_doc "p3" (JStr "u1") (JStr "third") (JStr "") [] "2024-05-03T08:00:00+00:00" ];
     blobs := ∅; faults := []; trace := [] |}.

(** ** Vocabulary of the further properties *)

(** The key [uploadMedia] builds for the blob: [f"{user_id}/{media_id}-{file_name}"]. *)
Definition blob_name (user_id media_id file_name : string) : string :=
  user_id +:+ "/" +:+ media_id +:+ "-" +:+ file_name.

(** The document [uploadMedia] writes. *)
Definition media_item (media_id now user_id : string) (file : FileStorage) : dict :=
  [ ("id", JStr media_id);
    ("userId", JStr user_id);
    ("fileName", JStr (filename file));
    ("contentType", JStr (content_type file));
    ("sizeBytes", JNum (Z.of_nat (List.length (stream file))));
    ("blobName", JStr (blob_name user_id media_id (filename file)));
    ("uploadedAt", JStr now) ].

(** The blob [uploadMedia] stores. *)
Definition blob_of (file : FileStorage) : Blob :=
  {| blob_data := stream file; blob_content_type := content_type file |}.

(** A media document with a non-empty string as its [blobName]. *)
Definition has_blobName (d : dict) : Prop :=
  exists n, assoc_get "blobName" d = Some (JStr n) /\ n <> "".

(** Every media document of the store carries a usable [blobName]. *)
Definition media_wf (w : World) : Prop := Forall has_blobName (media_docs w).

(** The three answers of [deleteMedia] with status 500. *)
Definition missing_blobname : HttpResponse :=
  http_response 500 (Text "media record missing blobname").

Definition blob_delete_failed : HttpResponse :=
  http_response 500 (Text "failed to delete media blob").

Definition doc_delete_failed : HttpResponse :=
  http_response 500 (Text "failed to delete cosmos document").

(** A second file of user u1, and requests on the stored media. *)
Definition b_txt : FileStorage :=
  {| filename := "b.txt"; content_type := "text/plain"; stream := [Byte.x68; Byte.x69] |}.

Definition upload_b_u1 : HttpRequest :=
  {| params := []; form := [("userId", "u1")]; files := [("file", b_txt)];
     json_body := None |}.

Definition post_m1_u1 : dict :=
  [("userId", JStr "u1"); ("title", JStr "T"); ("media", JArr [JStr "m1"])].

(** The media document of u1 without its blob, as a failed document delete
    leaves it. *)
Definition world_m1_orphan : World :=
  {| media_docs := [media_m1]; post_docs := []; blobs := ∅;
     faults := []; trace := [] |}.

(** The media document of [(media_id, user_id)] exists, names its blob by
    a non-empty string, and that blob is in the Blob Store. *)
Definition deletable (w : World) (user_id media_id : string) : Prop :=
  exists d n,
    lookup_doc media_id (JStr user_id) (media_docs w) = Some d /\
    assoc_get "blobName" d = Some (JStr n) /\ n <> "" /\
    is_Some (blobs w !! n).

(** The media value of a body lets the loop of [createPost] run to its
    end: it is falsy (no lookup is made), or every element it iterates
    names a media document owned by [user_id] that carries a [blobName]. *)
Definition media_loads (w : World) (user_id media : json) : Prop :=
  py_truthy media = false \/
  exists ms docs, py_iter media = Some ms /\ Forall2 (readable w user_id) ms docs.

(** The media document of [(media_id, user_id)] names its blob by a
    non-empty string, and no blob of that name is in the Blob Store. *)
Definition orphaned (w : World) (user_id media_id : string) : Prop :=
  exists d n,
    lookup_doc media_id (JStr user_id) (media_docs w) = Some d /\
    assoc_get "blobName" d = Some (JStr n) /\ n <> "" /\
    blobs w !! n = None.

(** The world after the request [req] has been sent to [deleteMedia] once
    for each fault schedule of [fss], in turn. *)
Definition retries (req : HttpRequest) (fss : list (list bool)) (w : World) : World :=
  fold_left (fun w fs => snd (serve (deleteMedia req) (set_faults fs w))) fss w.

(** ** Store calls: equations *)

Lemma store_call_eq c w :
  store_call c w =
    (if next_fault w then Raise ServiceError else Ok tt, after_call c w).
Proof.
  unfold store_call, next_fault, after_call.
  destruct w as [md pd bl fs tr]; simpl.
  destruct fs as [|[] fs]; reflexivity.
Qed.

Lemma same_stores_refl w : same_stores w w.
Proof. repeat split. Qed.

Lemma same_stores_trans w1 w2 w3 :
  same_stores w1 w2 -> same_stores w2 w3 -> same_stores w1 w3.
Proof. unfold same_stores. intros (?&?&?) (?&?&?). repeat split; congruence. Qed.

Lemma after_call_same c w : same_stores w (after_call c w).
Proof. repeat split. Qed.

Lemma after_call_container k c w : container k (after_call c w) = container k w.
Proof. destruct k; reflexivity. Qed.

Lemma no_fault_next w : no_fault w -> next_fault w = false.
Proof.
  unfold no_fault, next_fault. destruct (faults w) as [|b fs]; [reflexivity|].
  intros H. inversion H; subst. reflexivity.
Qed.

Lemma no_fault_after c w : no_fault w -> no_fault (after_call c w).
Proof.
  unfold no_fault; simpl. destruct (faults w) as [|b fs]; simpl; [auto|].
  intros H. inversion H; subst. assumption.
Qed.

Lemma read_item_eq c i pk w :
  read_item c (JStr i) pk w =
    (if next_fault w then Raise ServiceError
     else match lookup_doc i pk (container c w) with
          | Some doc => Ok doc
          | None => Raise ResourceNotFoundError
          end,
     after_call (read_item_call c i pk) w).
Proof.
  unfold read_item, bind, get_world. rewrite store_call_eq.
  destruct (next_fault w); [reflexivity|].
  rewrite after_call_container.
  destruct (lookup_doc i pk (container c w)); reflexivity.
Qed.

Lemma delete_item_eq c i pk w :
  delete_item c i pk w =
    let w1 := after_call (delete_item_call c i pk) w in
    if next_fault w then (Raise ServiceError, w1)
    else match lookup_doc i pk (container c w) with
         | Some _ => (Ok tt, set_container c (remove_doc i pk (container c w)) w1)
         | None => (Raise ResourceNotFoundError, w1)
         end.
Proof.
  unfold delete_item, bind, get_world. rewrite store_call_eq. cbv zeta.
  destruct (next_fault w); [reflexivity|].
  rewrite after_call_container.
  destruct (lookup_doc i pk (container c w)); reflexivity.
Qed.

Lemma delete_blob_eq n w :
  delete_blob (JStr n) w =
    let w1 := after_call (delete_blob_call n) w in
    if next_fault w then (Raise ServiceError, w1)
    else match blobs w !! n with
         | Some _ => (Ok tt, set_blobs (delete n (blobs w)) w1)
         | None => (Raise ResourceNotFoundError, w1)
         end.
Proof.
  unfold delete_blob, bind, get_world. rewrite store_call_eq. cbv zeta.
  destruct (next_fault w); [reflexivity|].
  change (blobs (after_call (delete_blob_call n) w)) with (blobs w).
  destruct (blobs w !! n); reflexivity.
Qed.

Lemma lookup_remove_doc i pk docs : lookup_doc i pk (remove_doc i pk docs) = None.
Proof.
  unfold lookup_doc, remove_doc.
  induction docs as [|d docs IH]; simpl; [reflexivity|].
  destruct (has_key i pk d) eqn:E; simpl; [exact IH|].
  rewrite E. exact IH.
Qed.

(** ** The media loop of createPost *)

Lemma scalar_eqb_eq a b : scalar_eqb a b = true -> a = b.
Proof.
  destruct a, b; simpl; try discriminate; intros H.
  - reflexivity.
  - apply Bool.eqb_prop in H. congruence.
  - apply Z.eqb_eq in H. congruence.
  - apply String.eqb_eq in H. congruence.
Qed.

Lemma lookup_doc_key i pk docs d :
  lookup_doc i pk docs = Some d ->
  In d docs /\ assoc_get "id" d = Some (JStr i) /\ assoc_get "userId" d = Some pk.
Proof.
  unfold lookup_doc. intros H. apply List.find_some in H as [Hin Hk].
  split; [exact Hin|]. unfold has_key in Hk.
  destruct (assoc_get "id" d) as [v|]; [|discriminate].
  destruct (assoc_get "userId" d) as [u|]; [|discriminate].
  apply andb_prop in Hk as [H1 H2].
  apply scalar_eqb_eq in H1, H2. subst. split; reflexivity.
Qed.

Lemma owned_inv w uid m d :
  owned w uid m = Some d ->
  exists i, m = JStr i /\ lookup_doc i uid (media_docs w) = Some d
            /\ assoc_get "id" d = Some (JStr i).
Proof.
  destruct m; simpl; try discriminate. intros H. exists s.
  repeat split; [exact H|]. apply lookup_doc_key in H. tauto.
Qed.

Lemma owned_same_stores w w' uid m : same_stores w w' -> owned w' uid m = owned w uid m.
Proof. intros (Hm & _ & _). unfold owned. rewrite Hm. reflexivity. Qed.

Lemma load_media_step uid m d rest refs w :
  no_fault w -> readable w uid m d ->
  exists w1, load_media uid (m :: rest) refs w
               = load_media uid rest (refs ++ [media_ref d]) w1
             /\ same_stores w w1 /\ no_fault w1.
Proof.
  intros Hnf [Ho Hb]. apply owned_inv in Ho as (i & -> & Hl & Hid).
  exists (after_call (read_item_call COSMOS_MEDIA_CONTAINER i uid) w).
  split; [|split; [apply after_call_same | apply no_fault_after, Hnf]].
  cbn [load_media]. unfold bind at 1. unfold try_except. rewrite read_item_eq.
  rewrite (no_fault_next _ Hnf). cbn [container]. rewrite Hl.
  unfold bind, subscript. rewrite Hid.
  destruct (assoc_get "blobName" d) as [b|] eqn:Eb; [|congruence].
  unfold ret, media_ref, dict_get. rewrite Hid, Eb. reflexivity.
Qed.

Lemma load_media_prefix uid good docs rest refs w :
  no_fault w -> Forall2 (readable w uid) good docs ->
  exists w1, load_media uid (good ++ rest) refs w
               = load_media uid rest (refs ++ map media_ref docs) w1
             /\ same_stores w w1 /\ no_fault w1.
Proof.
  intros Hnf HF. revert docs refs w Hnf HF.
  induction good as [|m good IH]; intros docs refs w Hnf HF.
  - inversion HF; subst. exists w. simpl. rewrite app_nil_r.
    repeat split; assumption.
  - inversion HF as [|? d ? docs' Hr HF']; subst.
    destruct (load_media_step uid m d (good ++ rest) refs w Hnf Hr)
      as (w1 & E1 & Hs1 & Hnf1).
    destruct (IH docs' (refs ++ [media_ref d]) w1 Hnf1) as (w2 & E2 & Hs2 & Hnf2).
    { eapply Forall2_impl; [exact HF'|]. intros x y [Ho Hb]. split; [|exact Hb].
      rewrite (owned_same_stores _ _ _ _ Hs1). exact Ho. }
    exists w2. split; [|split; [eapply same_stores_trans; eassumption | exact Hnf2]].
    rewrite <- app_comm_cons, E1, E2. simpl. rewrite <- app_assoc. reflexivity.
Qed.

Lemma load_media_inv uid ms refs w r w' :
  load_media uid ms refs w = (r, w') ->
  same_stores w w' /\
  match r with
  | Ok (inr out) =>
      exists docs, Forall2 (readable w uid) ms docs /\ out = refs ++ map media_ref docs
  | Ok (inl resp) =>
      exists m, In m ms /\
        resp = http_response 404 (FText "media not found or not owned by user: " m)
  | Raise e => e = KeyError /\ no_blobName w uid ms
  end.
Proof.
  revert refs w. induction ms as [|m ms IH]; intros refs w H.
  - inversion H; subst. split; [apply same_stores_refl|].
    exists []. split; [constructor | rewrite app_nil_r; reflexivity].
  - cbn [load_media] in H. unfold bind at 1 in H. unfold try_except in H.
    assert (Hfail : forall w1, same_stores w w1 ->
              (Ok (inl (http_response 404
                 (FText "media not found or not owned by user: " m))), w1) = (r, w') ->
              same_stores w w' /\
              match r with
              | Ok (inr out) =>
                  exists docs, Forall2 (readable w uid) (m :: ms) docs /\
                               out = refs ++ map media_ref docs
              | Ok (inl resp) => exists m0, In m0 (m :: ms) /\
                  resp = http_response 404
                           (FText "media not found or not owned by user: " m0)
              | Raise e => e = KeyError /\ no_blobName w uid (m :: ms)
              end).
    { intros w1 Hs E. inversion E; subst. split; [exact Hs|].
      exists m. split; [left; reflexivity | reflexivity]. }
    destruct m as [| | |i| |]; try (apply (Hfail w (same_stores_refl w)); exact H).
    rewrite read_item_eq in H.
    set (w1 := after_call (read_item_call COSMOS_MEDIA_CONTAINER i uid) w) in *.
    assert (Hs1 : same_stores w w1) by apply after_call_same.
    destruct (next_fault w); [apply (Hfail w1 Hs1); exact H|].
    cbn [container] in H.
    destruct (lookup_doc i uid (media_docs w)) as [d|] eqn:El;
      [|apply (Hfail w1 Hs1); exact H].
    unfold bind, subscript in H.
    pose proof (lookup_doc_key _ _ _ _ El) as (_ & Ei & _). rewrite Ei in H.
    unfold ret in H.
    destruct (assoc_get "blobName" d) as [vb|] eqn:Eb.
    2:{ unfold raise in H. inversion H; subst. split; [exact Hs1|].
        split; [reflexivity|]. exists (JStr i), d.
        split; [left; reflexivity|]. split; [exact El | exact Eb]. }
    apply IH in H as [Hs2 Hr]. split; [eapply same_stores_trans; eassumption|].
    destruct r as [[resp|out]|e].
    + destruct Hr as (m0 & Hin & ->). exists m0. split; [right; exact Hin | reflexivity].
    + destruct Hr as (docs & HF & ->). exists (d :: docs). split.
      * constructor.
        -- split; [exact El | rewrite Eb; discriminate].
        -- eapply Forall2_impl; [exact HF|]. intros x y [Ho Hb]. split; [|exact Hb].
           rewrite <- (owned_same_stores _ _ _ _ Hs1). exact Ho.
      * cbn [map]. rewrite <- app_assoc. cbn [app].
        unfold media_ref, dict_get. rewrite Ei, Eb. reflexivity.
    + destruct Hr as (-> & m0 & d0 & Hin & Ho & Hb). split; [reflexivity|].
      exists m0, d0. split; [right; exact Hin|]. split; [|exact Hb].
      rewrite <- (owned_same_stores _ _ _ _ Hs1). exact Ho.
Qed.

Lemma py_iter_falsy v ms : py_iter v = Some ms -> py_truthy v = false -> ms = [].
Proof.
  destruct v as [| | |s|items|fields]; simpl; try discriminate; intros H Ht;
    inversion H; subst; clear H.
  - apply negb_false_iff, String.eqb_eq in Ht. subst. reflexivity.
  - destruct ms; [reflexivity | discriminate].
  - destruct fields; [reflexivity | discriminate].
Qed.

(** The media phase of [createPost] is the loop over the iterated value. *)
Lemma media_phase_eq uid media ms :
  py_iter media = Some ms ->
  (if py_truthy media then
     match py_iter media with
     | Some ms => load_media uid ms []
     | None => raise TypeError
     end
   else ret (inr [])) = load_media uid ms [].
Proof.
  intros H. destruct (py_truthy media) eqn:Ht.
  - rewrite H. reflexivity.
  - rewrite (py_iter_falsy _ _ H Ht). reflexivity.
Qed.

Lemma create_item_eq c doc i u w :
  doc_key doc = Some (i, u) ->
  create_item c doc w =
    let w1 := after_call (create_item_call c doc) w in
    if next_fault w then (Raise ServiceError, w1)
    else match lookup_doc i u (container c w) with
         | Some _ => (Raise ResourceExistsError, w1)
         | None => (Ok tt, set_container c (container c w ++ [doc]) w1)
         end.
Proof.
  intros Hk. unfold create_item, bind, get_world. rewrite store_call_eq. cbv zeta.
  destruct (next_fault w); [reflexivity|].
  rewrite Hk, after_call_container.
  destruct (lookup_doc i u (container c w)); reflexivity.
Qed.

Lemma doc_key_post_doc post_id uid title caption refs now :
  doc_key (post_doc post_id uid title caption refs now) = Some (post_id, uid).
Proof. reflexivity. Qed.

Lemma createPost_loop post_id now req body ms w :
  json_body req = Some (JObj body) ->
  py_iter (dict_get "media" (JArr []) body) = Some ms ->
  createPost post_id now req w =
    bind (load_media (dict_get "userId" JNull body) ms [])
         (write_post post_id now body) w.
Proof.
  intros Hb Hi. unfold createPost. rewrite Hb.
  rewrite (media_phase_eq _ _ _ Hi). reflexivity.
Qed.

Lemma write_post_refs post_id now body refs w :
  let doc := post_doc post_id (dict_get "userId" JNull body)
               (dict_get "title" JNull body)
               (dict_get "caption" (JStr "") body) refs now in
  let w1 := after_call (create_item_call COSMOS_POST_CONTAINER doc) w in
  write_post post_id now body (inr refs) w =
    if next_fault w then (Raise ServiceError, w1)
    else match lookup_doc post_id (dict_get "userId" JNull body) (post_docs w) with
         | Some _ => (Raise ResourceExistsError, w1)
         | None =>
             (Ok (http_response 201 (Json (JObj doc))),
              set_container COSMOS_POST_CONTAINER (post_docs w ++ [doc]) w1)
         end.
Proof.
  cbv zeta. unfold write_post, bind.
  rewrite (create_item_eq _ _ _ _ _ (doc_key_post_doc _ _ _ _ _ _)). cbv zeta.
  destruct (next_fault w); [reflexivity|]. cbn [container].
  destruct (lookup_doc post_id (dict_get "userId" JNull body) (post_docs w));
    reflexivity.
Qed.

Lemma load_media_missing uid m rest refs w :
  owned w uid m = None ->
  exists w1, load_media uid (m :: rest) refs w
               = (Ok (inl (http_response 404
                             (FText "media not found or not owned by user: " m))), w1)
             /\ same_stores w w1.
Proof.
  intros Ho. cbn [load_media]. unfold bind at 1. unfold try_except.
  destruct m as [| | |i| |];
    try (exists w; split; [reflexivity | apply same_stores_refl]).
  exists (after_call (read_item_call COSMOS_MEDIA_CONTAINER i uid) w).
  split; [|apply after_call_same].
  rewrite read_item_eq. cbn [container]. simpl in Ho. rewrite Ho.
  destruct (next_fault w); reflexivity.
Qed.

Lemma load_media_no_blobName uid m d rest refs w :
  no_fault w -> owned w uid m = Some d -> assoc_get "blobName" d = None ->
  exists w1, load_media uid (m :: rest) refs w = (Raise KeyError, w1)
             /\ same_stores w w1.
Proof.
  intros Hnf Ho Hb. apply owned_inv in Ho as (i & -> & Hl & Hid).
  exists (after_call (read_item_call COSMOS_MEDIA_CONTAINER i uid) w).
  split; [|apply after_call_same].
  cbn [load_media]. unfold bind at 1. unfold try_except. rewrite read_item_eq.
  rewrite (no_fault_next _ Hnf). cbn [container]. rewrite Hl.
  unfold bind, subscript. rewrite Hid, Hb. reflexivity.
Qed.

(** Every way a [createPost] with an object body can end: the 404 of a
    referenced id, the KeyError of a record without blobName, a failed
    write of the post, or the 201. *)
Lemma createPost_cases post_id now req body ms w o w' :
  json_body req = Some (JObj body) ->
  py_iter (dict_get "media" (JArr []) body) = Some ms ->
  serve (createPost post_id now req) w = (o, w') ->
  (same_stores w w' /\
   ((exists m, In m ms /\
       o = Responded (http_response 404
                        (FText "media not found or not owned by user: " m)))
    \/ (o = Unhandled KeyError /\ no_blobName w (dict_get "userId" JNull body) ms)
    \/ ((exists docs, Forall2 (readable w (dict_get "userId" JNull body)) ms docs) /\
        exists e, o = Unhandled e)))
  \/ (exists docs,
        Forall2 (readable w (dict_get "userId" JNull body)) ms docs /\
        let doc := post_doc post_id (dict_get "userId" JNull body)
                     (dict_get "title" JNull body)
                     (dict_get "caption" (JStr "") body) (map media_ref docs) now in
        o = Responded (http_response 201 (Json (JObj doc))) /\
        post_docs w' = post_docs w ++ [doc]).
Proof.
  intros Hb Hi. unfold serve. rewrite (createPost_loop _ _ _ _ _ _ Hb Hi).
  unfold bind.
  destruct (load_media (dict_get "userId" JNull body) ms [] w) as [r w1] eqn:E.
  apply load_media_inv in E as [Hs Hr].
  destruct r as [[resp|refs]|e].
  - destruct Hr as (m & Hin & ->). cbn. intros H; inversion H; subst.
    left. split; [exact Hs|]. left. exists m. split; [exact Hin | reflexivity].
  - rewrite write_post_refs. destruct Hs as (Hm & Hp & Hbl).
    destruct Hr as (docs & HF & ->).
    destruct (next_fault w1).
    { intros H; inversion H; subst. left. split; [repeat split; assumption|].
      right. right. split; [exists docs; exact HF | eexists; reflexivity]. }
    destruct (lookup_doc post_id (dict_get "userId" JNull body) (post_docs w1)).
    { intros H; inversion H; subst. left. split; [repeat split; assumption|].
      right. right. split; [exists docs; exact HF | eexists; reflexivity]. }
    intros H; inversion H; subst. right.
    exists docs. split; [exact HF|]. cbv zeta. split; [reflexivity|].
    cbn. rewrite Hp. reflexivity.
  - destruct Hr as [-> Hnb]. intros H; inversion H; subst. left.
    split; [exact Hs|]. right. left. split; [reflexivity | exact Hnb].
Qed.

(** The path on which every lookup succeeds and the post is written. *)
Lemma createPost_created post_id now req body ms docs w :
  json_body req = Some (JObj body) ->
  py_iter (dict_get "media" (JArr []) body) = Some ms ->
  Forall2 (readable w (dict_get "userId" JNull body)) ms docs ->
  no_fault w ->
  lookup_doc post_id (dict_get "userId" JNull body) (post_docs w) = None ->
  let post := post_doc post_id (dict_get "userId" JNull body)
                (dict_get "title" JNull body)
                (dict_get "caption" (JStr "") body) (map media_ref docs) now in
  exists w',
    serve (createPost post_id now req) w
      = (Responded (http_response 201 (Json (JObj post))), w') /\
    post_docs w' = post_docs w ++ [post].
Proof.
  intros Hb Hi HF Hnf Hfresh. cbv zeta.
  set (uid := dict_get "userId" JNull body) in *.
  destruct (load_media_prefix uid ms docs [] [] w Hnf HF) as (w1 & E1 & Hs1 & Hnf1).
  rewrite app_nil_r in E1. cbn [load_media app] in E1.
  destruct Hs1 as (_ & Hp1 & _).
  eexists. split.
  - unfold serve. rewrite (createPost_loop _ _ _ _ _ _ Hb Hi). unfold bind.
    fold uid. rewrite E1. unfold ret. rewrite write_post_refs.
    rewrite (no_fault_next _ Hnf1). fold uid.
    rewrite Hp1, Hfresh. reflexivity.
  - reflexivity.
Qed.

Lemma createPost_obj post_id now req body :
  json_body req = Some (JObj body) ->
  createPost post_id now req =
    bind (if py_truthy (dict_get "media" (JArr []) body) then
            match py_iter (dict_get "media" (JArr []) body) with
            | Some ms => load_media (dict_get "userId" JNull body) ms []
            | None => raise TypeError
            end
          else ret (inr []))
         (write_post post_id now body).
Proof. intros Hb. unfold createPost. rewrite Hb. reflexivity. Qed.

(** createPost never answers 400 to a body that parsed. *)
Lemma createPost_no_400 post_id now req b w :
  json_body req = Some b ->
  status_of (fst (serve (createPost post_id now req) w)) <> 400.
Proof.
  intros Hb.
  destruct b as [| | | | |body];
    try (unfold createPost; rewrite Hb; cbn; discriminate).
  destruct (py_iter (dict_get "media" (JArr []) body)) as [ms|] eqn:Hi.
  - destruct (serve (createPost post_id now req) w) as [o w'] eqn:E.
    destruct (createPost_cases _ _ _ _ _ _ _ _ Hb Hi E)
      as [[_ [(m & _ & ->)|[[-> _]|(_ & e & ->)]]]|(docs & _ & -> & _)];
      cbn; discriminate.
  - rewrite (createPost_obj _ _ _ _ Hb). unfold serve, bind. rewrite Hi.
    destruct (py_truthy (dict_get "media" (JArr []) body)).
    + cbn. discriminate.
    + unfold ret. rewrite write_post_refs.
      destruct (next_fault w); [cbn; discriminate|].
      destruct (lookup_doc post_id (dict_get "userId" JNull body) (post_docs w));
        cbn; discriminate.
Qed.

(** ** createPost: referential integrity *)

Lemma readable_not_missing w uid ms docs :
  Forall2 (readable w uid) ms docs ->
  Exists (fun m => owned w uid m = None) ms -> False.
Proof.
  intros HF Hex. apply Exists_exists in Hex as (m & Hin & Hm).
  apply list_elem_of_lookup in Hin as [k Hk].
  destruct (Forall2_lookup_l _ _ _ _ _ HF Hk) as (d & _ & Ho & _). congruence.
Qed.


(** C9: when the loop of createPost reaches a media document that is read
    successfully but has no blobName, the subscript raises outside the
    handler of the lookup: the request ends as an unhandled fault (a generic
    500), not as a 404, and no Post document is written. *)
Theorem createPost_media_without_blobName post_id now req body good docs m d rest w :
  json_body req = Some (JObj body) ->
  py_iter (dict_get "media" (JArr []) body) = Some (good ++ m :: rest) ->
  Forall2 (readable w (dict_get "userId" JNull body)) good docs ->
  no_fault w ->
  owned w (dict_get "userId" JNull body) m = Some d ->
  assoc_get "blobName" d = None ->
  exists w',
    serve (createPost post_id now req) w = (Unhandled KeyError, w') /\
    status_of (Unhandled KeyError) = 500 /\
    post_docs w' = post_docs w.
Proof.
  intros Hb Hi HF Hnf Ho Hbn.
  unfold serve. rewrite (createPost_loop _ _ _ _ _ _ Hb Hi). unfold bind.
  destruct (load_media_prefix _ good docs (m :: rest) [] w Hnf HF)
    as (w1 & E1 & Hs1 & Hnf1).
  rewrite E1.
  destruct (load_media_no_blobName (dict_get "userId" JNull body) m d rest
              ([] ++ map media_ref docs) w1 Hnf1) as (w2 & E2 & Hs2).
  { rewrite (owned_same_stores _ _ _ _ Hs1). exact Ho. }
  { exact Hbn. }
  rewrite E2. exists w2. split; [reflexivity|]. split; [reflexivity|].
  destruct Hs1 as (_ & Hp1 & _), Hs2 as (_ & Hp2 & _). congruence.
Qed.

Lemma createPost_media_without_blobName_witness :
  exists w',
    serve (createPost "p1" "2024-05-02T09:00:00+00:00"
             (POST_json (JObj [("userId", JStr "u1"); ("title", JStr "T");
                               ("media", JArr [JStr "m0"])])))
          world_m0 = (Unhandled KeyError, w') /\
    status_of (Unhandled KeyError) = 500 /\
    post_docs w' = post_docs world_m0.
Proof.
  apply (createPost_media_without_blobName "p1" "2024-05-02T09:00:00+00:00"
           (POST_json (JObj [("userId", JStr "u1"); ("title", JStr "T");
                             ("media", JArr [JStr "m0"])]))
           [("userId", JStr "u1"); ("title", JStr "T"); ("media", JArr [JStr "m0"])]
           [] [] (JStr "m0") media_m0 [] world_m0).
  - reflexivity.
  - reflexivity.
  - constructor.
  - constructor.
  - reflexivity.
  - reflexivity.
Defined.



Lemma media_refs_lookup w uid ms docs (k : nat) m :
  Forall2 (readable w uid) ms docs -> ms !! k = Some m ->
  exists d vb,
    owned w uid m = Some d /\
    assoc_get "blobName" d = Some vb /\
    map media_ref docs !! k
      = Some (JObj [ ("mediaId", m);
                     ("blobName", vb);
                     ("contentType", dict_get "contentType" JNull d) ]).
Proof.
  intros HF Hk.
  destruct (Forall2_lookup_l _ _ _ _ _ HF Hk) as (d & Hd & Ho & Hbn).
  destruct (assoc_get "blobName" d) as [vb|] eqn:Eb; [|congruence].
  exists d, vb. split; [exact Ho|]. split; [exact Eb|].
  rewrite list_lookup_fmap, Hd. cbn.
  apply owned_inv in Ho as (i & -> & _ & Hid).
  unfold media_ref, dict_get. rewrite Hid, Eb. reflexivity.
Qed.

Lemma readable_docs w uid ms :
  Forall (fun m => owned w uid m <> None) ms ->
  (forall m d, In m ms -> owned w uid m = Some d -> assoc_get "blobName" d <> None) ->
  exists docs, Forall2 (readable w uid) ms docs.
Proof.
  induction ms as [|m ms IH]; intros Hall Hbn.
  - exists []. constructor.
  - inversion Hall as [|? ? Hm Hms]; subst.
    destruct (owned w uid m) as [d|] eqn:Eo; [|congruence].
    destruct (IH Hms) as [docs HF].
    { intros m' d' Hin. apply Hbn. right. exact Hin. }
    exists (d :: docs). constructor; [|exact HF].
    split; [exact Eo|]. apply (Hbn m d); [left; reflexivity | exact Eo].
Qed.

(** C3: when every referenced media id is owned by the given userId, the
    Post that createPost creates has a media sequence of the length and in
    the order of the input sequence: its k-th element is the MediaRef of
    the k-th input id, with mediaId, blobName and contentType copied from
    the MediaItem read.  The Post is created, with answer 201, when these
    MediaItems carry a blobName and the store serves the request. *)
Theorem createPost_media_sequence post_id now req body ms w :
  json_body req = Some (JObj body) ->
  py_iter (dict_get "media" (JArr []) body) = Some ms ->
  Forall (fun m => owned w (dict_get "userId" JNull body) m <> None) ms ->
  (forall post w',
      serve (createPost post_id now req) w
        = (Responded (http_response 201 (Json (JObj post))), w') ->
      post_docs w' = post_docs w ++ [post] /\
      exists refs,
        assoc_get "media" post = Some (JArr refs) /\
        List.length refs = List.length ms /\
        forall (k : nat) (m : json), ms !! k = Some m ->
          exists d vb,
            owned w (dict_get "userId" JNull body) m = Some d /\
            assoc_get "blobName" d = Some vb /\
            refs !! k = Some (JObj [ ("mediaId", m);
                                     ("blobName", vb);
                                     ("contentType", dict_get "contentType" JNull d) ])) /\
  ((forall m d, In m ms -> owned w (dict_get "userId" JNull body) m = Some d ->
                assoc_get "blobName" d <> None) ->
   no_fault w ->
   lookup_doc post_id (dict_get "userId" JNull body) (post_docs w) = None ->
   exists post w',
     serve (createPost post_id now req) w
       = (Responded (http_response 201 (Json (JObj post))), w')).
Proof.
  intros Hb Hi Hall. split.
  - intros post w' E.
    destruct (createPost_cases _ _ _ _ _ _ _ _ Hb Hi E)
      as [[_ [(m & _ & Ho)|[[Ho _]|(_ & e & Ho)]]]|(docs & HF & Ho & Hp)];
      try discriminate.
    cbv zeta in Ho, Hp. inversion Ho; subst post; clear Ho.
    split; [exact Hp|]. exists (map media_ref docs).
    split; [reflexivity|].
    split. { rewrite length_map. symmetry. eapply Forall2_length; exact HF. }
    intros k m Hk. exact (media_refs_lookup _ _ _ _ _ _ HF Hk).
  - intros Hbn Hnf Hfresh.
    destruct (readable_docs _ _ _ Hall Hbn) as [docs HF].
    destruct (createPost_created post_id now req body ms docs w Hb Hi HF Hnf Hfresh)
      as (w' & E & _).
    eexists; exists w'. exact E.
Qed.

Lemma createPost_media_sequence_witness :
  exists post refs w',
    serve (createPost "p1" "2024-05-02T09:00:00+00:00"
             (POST_json (JObj [("userId", JStr "u1"); ("title", JStr "T");
                               ("media", JArr [JStr "m1"])])))
          world_u1
      = (Responded (http_response 201 (Json (JObj post))), w') /\
    post_docs w' = post_docs world_u1 ++ [post] /\
    assoc_get "media" post = Some (JArr refs) /\
    List.length refs = 1%nat /\
    refs !! 0%nat = Some (JObj [ ("mediaId", JStr "m1");
                                 ("blobName", JStr "u1/m1-a.png");
                                 ("contentType", JStr "image/png") ]).
Proof.
  destruct (createPost_media_sequence "p1" "2024-05-02T09:00:00+00:00"
              (POST_json (JObj [("userId", JStr "u1"); ("title", JStr "T");
                                ("media", JArr [JStr "m1"])]))
              [("userId", JStr "u1"); ("title", JStr "T"); ("media", JArr [JStr "m1"])]
              [JStr "m1"] world_u1 eq_refl eq_refl)
    as [Hshape Hcreated].
  - constructor; [discriminate | constructor].
  - destruct Hcreated as (post & w' & E).
    + intros m d [<-|[]] Ho. cbn in Ho. inversion Ho; subst d. discriminate.
    + constructor.
    + reflexivity.
    + destruct (Hshape post w' E) as (Hp & refs & Hm & Hlen & Hk).
      exists post, refs, w'. repeat (split; [assumption|]).
      destruct (Hk 0%nat (JStr "m1") eq_refl) as (d & vb & Ho & Hbn & Hr).
      cbn in Ho. inversion Ho; subst d. cbn in Hbn. inversion Hbn; subst vb.
      exact Hr.
Defined.

(** ** createPost: userId and title are not validated *)

(** C7, as stated, fails: a body without userId and title that references
    a missing media id is answered 404, and no Post is created. *)
Lemma createPost_absent_fields_not_201 :
  let body := [("media", JArr [JStr "nope"])] in
  let res := serve (createPost "p1" "2024-05-02T09:00:00+00:00" (POST_json (JObj body)))
               empty_world in
  assoc_get "userId" body = None /\ assoc_get "title" body = None /\
  status_of (fst res) = 404 /\ status_of (fst res) <> 201 /\
  post_docs (snd res) = [].
Proof.
  cbv zeta. repeat split; try reflexivity. vm_compute. discriminate.
Qed.

(** ** deleteMedia *)

Lemma read_item_inv c i pk w r w1 :
  read_item c (JStr i) pk w = (r, w1) ->
  w1 = after_call (read_item_call c i pk) w /\
  match r with
  | Ok d => lookup_doc i pk (container c w) = Some d
  | Raise _ => next_fault w = true \/ lookup_doc i pk (container c w) = None
  end.
Proof.
  rewrite read_item_eq. intros H. inversion H; subst; clear H.
  split; [reflexivity|].
  destruct (next_fault w); [left; reflexivity|].
  destruct (lookup_doc i pk (container c w)); [reflexivity | right; reflexivity].
Qed.

Lemma delete_blob_inv name w r w1 :
  delete_blob name w = (r, w1) ->
  media_docs w1 = media_docs w /\ post_docs w1 = post_docs w /\
  match r with
  | Ok _ => exists n, name = JStr n /\ blobs w1 = delete n (blobs w)
  | Raise _ => blobs w1 = blobs w
  end.
Proof.
  destruct name as [| | |n| |];
    try solve [cbn; unfold raise; intros H; inversion H; subst; auto].
  rewrite delete_blob_eq. cbv zeta.
  destruct (next_fault w); [intros H; inversion H; subst; auto|].
  destruct (blobs w !! n); intros H; inversion H; subst; cbn; eauto.
Qed.

Lemma delete_item_inv c i pk w r w1 :
  delete_item c i pk w = (r, w1) ->
  blobs w1 = blobs w /\
  match r with
  | Ok _ => lookup_doc i pk (container c w) <> None /\
            w1 = set_container c (remove_doc i pk (container c w))
                   (after_call (delete_item_call c i pk) w)
  | Raise _ => (next_fault w = true \/ lookup_doc i pk (container c w) = None) /\
               w1 = after_call (delete_item_call c i pk) w
  end.
Proof.
  rewrite delete_item_eq. cbv zeta.
  destruct (next_fault w); [intros H; inversion H; subst; auto|].
  destruct (lookup_doc i pk (container c w)) eqn:E; intros H; inversion H; subst.
  - split; [destruct c; reflexivity|]. split; [discriminate | reflexivity].
  - auto.
Qed.

Lemma container_set_container c docs w : container c (set_container c docs w) = docs.
Proof. destruct c; reflexivity. Qed.

(** The body of [deleteMedia] once both parameters passed the check. *)
Lemma deleteMedia_params req user_id media_id :
  py_nonempty (assoc_get "userId" (params req)) = Some user_id ->
  py_nonempty (assoc_get "mediaId" (params req)) = Some media_id ->
  deleteMedia req =
    (r <- try_except (read_item COSMOS_MEDIA_CONTAINER (JStr media_id) (JStr user_id))
           (http_response 404 (Text "media not found")) ;;
     match r with
     | inl resp => ret resp
     | inr media_doc =>
         let blob_name := dict_get "blobName" JNull media_doc in
         if negb (py_truthy blob_name) then
           ret (http_response 500 (Text "media record missing blobname"))
         else
           r <- try_except (delete_blob blob_name)
                  (http_response 500 (Text "failed to delete media blob")) ;;
           match r with
           | inl resp => ret resp
           | inr _ =>
               r <- try_except (delete_item COSMOS_MEDIA_CONTAINER media_id (JStr user_id))
                      (http_response 500 (Text "failed to delete cosmos document")) ;;
               match r with
               | inl resp => ret resp
               | inr _ => ret (http_response 204 NoBody)
               end
           end
     end).
Proof. intros Hu Hm. unfold deleteMedia. rewrite Hu, Hm. reflexivity. Qed.

(** C1: the linear sequence of deleteMedia.  A failed point read gives 404;
    a document without blobName gives 500 and no delete call is made; a
    failed blob delete gives 500 and leaves the media document in place; a
    failed document delete after the blob delete gives 500; two successful
    deletes give 204 with no body, the document and the blob being gone. *)
Theorem deleteMedia_sequence req user_id media_id w :
  py_nonempty (assoc_get "userId" (params req)) = Some user_id ->
  py_nonempty (assoc_get "mediaId" (params req)) = Some media_id ->
  let read := read_item COSMOS_MEDIA_CONTAINER (JStr media_id) (JStr user_id) in
  let delete_doc := delete_item COSMOS_MEDIA_CONTAINER media_id (JStr user_id) in
  (forall e w1, read w = (Raise e, w1) ->
     serve (deleteMedia req) w
       = (Responded (http_response 404 (Text "media not found")), w1)) /\
  (forall d w1, read w = (Ok d, w1) -> assoc_get "blobName" d = None ->
     serve (deleteMedia req) w
       = (Responded (http_response 500 (Text "media record missing blobname")), w1) /\
     same_stores w w1 /\
     trace w1 = trace w ++ [read_item_call COSMOS_MEDIA_CONTAINER media_id (JStr user_id)]) /\
  (forall d w1 e w2, read w = (Ok d, w1) ->
     py_truthy (dict_get "blobName" JNull d) = true ->
     delete_blob (dict_get "blobName" JNull d) w1 = (Raise e, w2) ->
     serve (deleteMedia req) w
       = (Responded (http_response 500 (Text "failed to delete media blob")), w2) /\
     media_docs w2 = media_docs w /\
     lookup_doc media_id (JStr user_id) (media_docs w2) = Some d) /\
  (forall d w1 w2 e w3, read w = (Ok d, w1) ->
     py_truthy (dict_get "blobName" JNull d) = true ->
     delete_blob (dict_get "blobName" JNull d) w1 = (Ok tt, w2) ->
     delete_doc w2 = (Raise e, w3) ->
     serve (deleteMedia req) w
       = (Responded (http_response 500 (Text "failed to delete cosmos document")), w3)) /\
  (forall d w1 w2 w3, read w = (Ok d, w1) ->
     py_truthy (dict_get "blobName" JNull d) = true ->
     delete_blob (dict_get "blobName" JNull d) w1 = (Ok tt, w2) ->
     delete_doc w2 = (Ok tt, w3) ->
     serve (deleteMedia req) w = (Responded (http_response 204 NoBody), w3) /\
     lookup_doc media_id (JStr user_id) (media_docs w3) = None /\
     exists n, dict_get "blobName" JNull d = JStr n /\ blobs w3 !! n = None).
Proof.
  intros Hu Hm read delete_doc. subst read delete_doc.
  unfold serve. rewrite (deleteMedia_params _ _ _ Hu Hm).
  split; [|split; [|split; [|split]]].
  - intros e w1 E. unfold bind, try_except. rewrite E. reflexivity.
  - intros d w1 E Hb. unfold bind, try_except. rewrite E.
    unfold dict_get. rewrite Hb.
    apply read_item_inv in E as [-> _]. repeat split.
  - intros d w1 e w2 E Ht E1. unfold bind, try_except.
    rewrite E. cbv beta iota zeta. rewrite Ht. cbn [negb]. rewrite E1.
    apply read_item_inv in E as [-> Hl]. apply delete_blob_inv in E1 as (Hm2 & _).
    split; [reflexivity|]. split; [exact Hm2|]. rewrite Hm2. exact Hl.
  - intros d w1 w2 e w3 E Ht E1 E2. unfold bind, try_except.
    rewrite E. cbv beta iota zeta. rewrite Ht. cbn [negb]. rewrite E1, E2.
    reflexivity.
  - intros d w1 w2 w3 E Ht E1 E2. unfold bind, try_except.
    rewrite E. cbv beta iota zeta. rewrite Ht. cbn [negb]. rewrite E1, E2.
    split; [reflexivity|].
    apply delete_blob_inv in E1 as (_ & _ & n & En & Hb).
    apply delete_item_inv in E2 as (Hb3 & _ & ->). split.
    + change (media_docs ?x) with (container COSMOS_MEDIA_CONTAINER x) at 1.
      rewrite container_set_container. apply lookup_remove_doc.
    + exists n. split; [exact En|]. rewrite Hb3, Hb. apply lookup_delete_eq.
Qed.

Lemma deleteMedia_sequence_witness :
  exists w3,
    serve (deleteMedia delete_m1) world_u1 = (Responded (http_response 204 NoBody), w3) /\
    lookup_doc "m1" (JStr "u1") (media_docs w3) = None /\
    blobs w3 !! "u1/m1-a.png" = None.
Proof.
  destruct (deleteMedia_sequence delete_m1 "u1" "m1" world_u1 eq_refl eq_refl)
    as (_ & _ & _ & _ & Hboth).
  edestruct (Hboth media_m1) as (E & Hdoc & n & En & Hblob).
  - reflexivity.
  - reflexivity.
  - reflexivity.
  - reflexivity.
  - eexists. split; [exact E|]. split; [exact Hdoc|].
    cbn in En. inversion En; subst n. exact Hblob.
Defined.

(** ** deletePost *)

Lemma deletePost_params req user_id post_id :
  py_nonempty (assoc_get "userId" (params req)) = Some user_id ->
  py_nonempty (assoc_get "postId" (params req)) = Some post_id ->
  deletePost req =
    (r <- try_except (delete_item COSMOS_POST_CONTAINER post_id (JStr user_id))
           (http_response 404 (Text "Post not found")) ;;
     match r with
     | inl resp => ret resp
     | inr _ => ret (http_response 204 NoBody)
     end).
Proof. intros Hu Hp. unfold deletePost. rewrite Hu, Hp. reflexivity. Qed.

(** What [deletePost] does once both parameters passed the check. *)
Lemma deletePost_run req user_id post_id w :
  py_nonempty (assoc_get "userId" (params req)) = Some user_id ->
  py_nonempty (assoc_get "postId" (params req)) = Some post_id ->
  let w1 := after_call (delete_item_call COSMOS_POST_CONTAINER post_id (JStr user_id)) w in
  serve (deletePost req) w =
    if next_fault w then
      (Responded (http_response 404 (Text "Post not found")), w1)
    else match lookup_doc post_id (JStr user_id) (post_docs w) with
         | Some _ =>
             (Responded (http_response 204 NoBody),
              set_container COSMOS_POST_CONTAINER
                (remove_doc post_id (JStr user_id) (post_docs w)) w1)
         | None => (Responded (http_response 404 (Text "Post not found")), w1)
         end.
Proof.
  intros Hu Hp. cbv zeta. unfold serve. rewrite (deletePost_params _ _ _ Hu Hp).
  unfold bind, try_except. rewrite delete_item_eq. cbv zeta.
  destruct (next_fault w); [reflexivity|]. cbn [container].
  destruct (lookup_doc post_id (JStr user_id) (post_docs w)); reflexivity.
Qed.

(** C6, as stated, fails: the post exists, the point-delete meets a store
    failure, and the handler answers 404 "Post not found"; nothing
    propagates as a generic 500, and the post is still there. *)
Lemma deletePost_store_failure_is_404 :
  lookup_doc "p1" (JStr "u1") (post_docs world_p1_failing) = Some post_p1 /\
  next_fault world_p1_failing = true /\
  fst (serve (deletePost delete_p1) world_p1_failing)
    = Responded (http_response 404 (Text "Post not found")) /\
  status_of (fst (serve (deletePost delete_p1) world_p1_failing)) <> 500 /\
  post_docs (snd (serve (deletePost delete_p1) world_p1_failing)) = [post_p1].
Proof.
  repeat split; try reflexivity. vm_compute. discriminate.
Qed.

(** C6 (as amended): deletePost answers 404 exactly when the point-delete
    raises, that is when the post is not found (wrong partition included)
    or the Document Store call fails; a dependency failure is caught by the
    same handler and reported as 404, the posts being left as they were;
    otherwise the answer is 204. *)
Theorem deletePost_404_iff req user_id post_id w :
  py_nonempty (assoc_get "userId" (params req)) = Some user_id ->
  py_nonempty (assoc_get "postId" (params req)) = Some post_id ->
  exists r w',
    serve (deletePost req) w = (Responded r, w') /\
    (status_code r = 404 <->
       next_fault w = true \/ lookup_doc post_id (JStr user_id) (post_docs w) = None) /\
    (status_code r = 404 \/ r = http_response 204 NoBody) /\
    (next_fault w = true ->
       r = http_response 404 (Text "Post not found") /\ post_docs w' = post_docs w).
Proof.
  intros Hu Hp. rewrite (deletePost_run _ _ _ _ Hu Hp). cbv zeta.
  destruct (next_fault w).
  - eexists; eexists. split; [reflexivity|]. cbn. repeat split; auto.
  - destruct (lookup_doc post_id (JStr user_id) (post_docs w)) eqn:El;
      eexists; eexists; (split; [reflexivity|]); cbn.
    + split; [|split; [right; reflexivity | discriminate]].
      split; [discriminate | intros [H|H]; discriminate].
    + split; [|split; [left; reflexivity | discriminate]].
      split; [right; reflexivity | reflexivity].
Qed.

Lemma deletePost_404_iff_witness :
  exists w',
    serve (deletePost delete_p1) world_p1_failing
      = (Responded (http_response 404 (Text "Post not found")), w') /\
    post_docs w' = post_docs world_p1_failing.
Proof.
  destruct (deletePost_404_iff delete_p1 "u1" "p1" world_p1_failing eq_refl eq_refl)
    as (r & w' & E & _ & _ & Hfault).
  destruct (Hfault eq_refl) as [-> Hp].
  exists w'. split; [exact E | exact Hp].
Defined.

(** ** uploadMedia *)

Lemma upload_blob_eq name data ct w :
  upload_blob name data ct w =
    let w1 := after_call (upload_blob_call name) w in
    if next_fault w then (Raise ServiceError, w1)
    else (Ok tt, set_blobs (<[name := {| blob_data := data; blob_content_type := ct |}]>
                              (blobs w)) w1).
Proof.
  unfold upload_blob, bind, get_world, modify. rewrite store_call_eq. cbv zeta.
  destruct (next_fault w); reflexivity.
Qed.

Lemma upsert_item_eq c doc i u w :
  doc_key doc = Some (i, u) ->
  upsert_item c doc w =
    let w1 := after_call (upsert_item_call c doc) w in
    if next_fault w then (Raise ServiceError, w1)
    else (Ok tt, set_container c (remove_doc i u (container c w) ++ [doc]) w1).
Proof.
  intros Hk. unfold upsert_item, bind, get_world, modify. rewrite store_call_eq.
  cbv zeta. destruct (next_fault w); [reflexivity|].
  rewrite Hk, after_call_container. reflexivity.
Qed.

Lemma lookup_doc_upserted i u docs doc :
  has_key i u doc = true -> lookup_doc i u (remove_doc i u docs ++ [doc]) = Some doc.
Proof.
  intros Hk. unfold lookup_doc, remove_doc.
  induction docs as [|d docs IH]; cbn.
  - rewrite Hk. reflexivity.
  - destruct (has_key i u d) eqn:E; cbn; [exact IH|]. rewrite E. exact IH.
Qed.

Lemma py_file_Some x file :
  x = Some file -> filename file <> "" -> py_file x = Some file.
Proof.
  intros -> Hn. cbn. destruct (String.eqb (filename file) "") eqn:E; [|reflexivity].
  apply String.eqb_eq in E. contradiction.
Qed.

Lemma py_file_inv x file :
  py_file x = Some file -> x = Some file /\ filename file <> "".
Proof.
  destruct x as [f|]; [|discriminate]. cbn.
  destruct (String.eqb (filename f) "") eqn:E; [discriminate|].
  intros H; inversion H; subst. split; [reflexivity|].
  intros Hn. rewrite Hn in E. discriminate.
Qed.

(** C4, as stated, fails: the userId is not empty and the file part is
    present, but the part has an empty filename and so does not pass
    [if not file]; the answer is 400 and no store call is made. *)
Lemma uploadMedia_empty_filename_is_400 :
  py_nonempty (assoc_get "userId" (form upload_no_name)) = Some "u1" /\
  assoc_get "file" (files upload_no_name) = Some no_name /\
  serve (uploadMedia "m1" "2024-05-01T10:00:00+00:00" upload_no_name) empty_world
    = (Responded (http_response 400 (Text "Missing userId or file")), empty_world) /\
  status_of (fst (serve (uploadMedia "m1" "2024-05-01T10:00:00+00:00" upload_no_name)
                    empty_world)) <> 201.
Proof.
  split; [reflexivity|]. split; [reflexivity|]. split; [reflexivity|].
  vm_compute. discriminate.
Qed.

(** C4 (as amended): for an upload with a non-empty userId and a present
    file part, a part with an empty filename is answered 400 with no store
    call; a part with a non-empty filename, when no store call fails, is
    answered 201 with the MediaItem, whose blobName is userId/id-fileName
    for the generated id and whose sizeBytes is the length of the payload;
    the payload is stored under that key, the document under (id, userId),
    and the blob is written before the document. *)
Theorem uploadMedia_created media_id now req user_id file w :
  py_nonempty (assoc_get "userId" (form req)) = Some user_id ->
  assoc_get "file" (files req) = Some file ->
  (filename file = "" ->
   serve (uploadMedia media_id now req) w
     = (Responded (http_response 400 (Text "Missing userId or file")), w)) /\
  (filename file <> "" ->
   no_fault w ->
   let blob_name := user_id +:+ "/" +:+ media_id +:+ "-" +:+ filename file in
   exists item w',
     serve (uploadMedia media_id now req) w
       = (Responded (http_response 201 (Json (JObj item))), w') /\
     assoc_get "id" item = Some (JStr media_id) /\
     assoc_get "blobName" item = Some (JStr blob_name) /\
     assoc_get "sizeBytes" item = Some (JNum (Z.of_nat (List.length (stream file)))) /\
     blobs w' !! blob_name
       = Some {| blob_data := stream file; blob_content_type := content_type file |} /\
     lookup_doc media_id (JStr user_id) (media_docs w') = Some item /\
     trace w' = trace w ++ [ upload_blob_call blob_name;
                             upsert_item_call COSMOS_MEDIA_CONTAINER item ]).
Proof.
  intros Hu Hf. split.
  { intros Hn. unfold serve, uploadMedia. rewrite Hu, Hf. cbn [py_file].
    rewrite Hn. reflexivity. }
  intros Hn Hnf. cbv zeta.
  set (blob_name := user_id +:+ "/" +:+ media_id +:+ "-" +:+ filename file).
  set (item := [ ("id", JStr media_id); ("userId", JStr user_id);
                 ("fileName", JStr (filename file));
                 ("contentType", JStr (content_type file));
                 ("sizeBytes", JNum (Z.of_nat (List.length (stream file))));
                 ("blobName", JStr blob_name); ("uploadedAt", JStr now) ]).
  assert (Hkey : doc_key item = Some (media_id, JStr user_id)) by reflexivity.
  assert (Hhas : has_key media_id (JStr user_id) item = true).
  { cbn. rewrite !String.eqb_refl. reflexivity. }
  exists item. eexists. split.
  { unfold serve, uploadMedia. rewrite Hu, (py_file_Some _ _ Hf Hn). unfold bind.
    rewrite upload_blob_eq. cbv zeta. rewrite (no_fault_next _ Hnf).
    fold blob_name. fold item. rewrite (upsert_item_eq _ _ _ _ _ Hkey). cbv zeta.
    rewrite no_fault_next; [reflexivity|].
    apply (no_fault_after (upload_blob_call blob_name) w Hnf). }
  split; [reflexivity|]. split; [reflexivity|]. split; [reflexivity|].
  split. { cbn. apply lookup_insert_eq. }
  split. { cbn. apply lookup_doc_upserted. exact Hhas. }
  cbn. rewrite <- app_assoc. reflexivity.
Qed.

Lemma uploadMedia_created_witness :
  exists item w',
    serve (uploadMedia "m1" "2024-05-01T10:00:00+00:00" upload_u1) empty_world
      = (Responded (http_response 201 (Json (JObj item))), w') /\
    assoc_get "blobName" item = Some (JStr "u1/m1-a.png") /\
    assoc_get "sizeBytes" item = Some (JNum 1) /\
    blobs w' !! "u1/m1-a.png"
      = Some {| blob_data := [Byte.x58]; blob_content_type := "image/png" |} /\
    trace w' = [ upload_blob_call "u1/m1-a.png";
                 upsert_item_call COSMOS_MEDIA_CONTAINER item ].
Proof.
  destruct (uploadMedia_created "m1" "2024-05-01T10:00:00+00:00" upload_u1 "u1" a_png
              empty_world eq_refl eq_refl) as [_ Hcreated].
  destruct Hcreated as (item & w' & E & _ & Hb & Hs & Hblob & _ & Ht).
  - discriminate.
  - constructor.
  - exists item, w'. repeat split; assumption.
Defined.

(** ** Missing parameters *)

Lemma py_nonempty_missing x : absent_or_empty x -> py_nonempty x = None.
Proof. intros [->| ->]; reflexivity. Qed.

(** C10: the endpoints that require parameters treat an empty string as
    an absent value: either way the answer is 400 and the world is left
    as it was, no store call having been made. *)
Theorem empty_parameter_is_missing req w :
  (forall media_id now,
      absent_or_empty (assoc_get "userId" (form req)) \/
      assoc_get "file" (files req) = None ->
      serve (uploadMedia media_id now req) w
        = (Responded (http_response 400 (Text "Missing userId or file")), w)) /\
  (absent_or_empty (assoc_get "userId" (params req)) ->
   serve (getPosts req) w = (Responded (http_response 400 (Text "Missing userId")), w)) /\
  (absent_or_empty (assoc_get "userId" (params req)) ->
   serve (getUserMedia req) w
     = (Responded (http_response 400 (Text "Missing userId")), w)) /\
  (absent_or_empty (assoc_get "userId" (params req)) \/
   absent_or_empty (assoc_get "postId" (params req)) ->
   serve (deletePost req) w
     = (Responded (http_response 400 (Text "Missing userId or postId")), w)) /\
  (absent_or_empty (assoc_get "userId" (params req)) \/
   absent_or_empty (assoc_get "mediaId" (params req)) ->
   serve (deleteMedia req) w
     = (Responded (http_response 400 (Text "missing userId or mediaId")), w)).
Proof.
  split; [|split; [|split; [|split]]].
  - intros media_id now [H|H]; unfold serve, uploadMedia.
    + rewrite (py_nonempty_missing _ H). reflexivity.
    + rewrite H. cbn [py_file]. destruct (py_nonempty _); reflexivity.
  - intros H. unfold serve, getPosts. rewrite (py_nonempty_missing _ H). reflexivity.
  - intros H. unfold serve, getUserMedia. rewrite (py_nonempty_missing _ H).
    reflexivity.
  - intros [H|H]; unfold serve, deletePost; rewrite (py_nonempty_missing _ H).
    + reflexivity.
    + destruct (py_nonempty _); reflexivity.
  - intros [H|H]; unfold serve, deleteMedia; rewrite (py_nonempty_missing _ H).
    + reflexivity.
    + destruct (py_nonempty _); reflexivity.
Qed.

Lemma empty_parameter_is_missing_witness :
  serve (deletePost (GET [("userId", ""); ("postId", "p1")])) world_p1_failing
    = (Responded (http_response 400 (Text "Missing userId or postId")), world_p1_failing) /\
  serve (deleteMedia (GET [("userId", "u1")])) world_u1
    = (Responded (http_response 400 (Text "missing userId or mediaId")), world_u1) /\
  serve (getPosts (GET [("userId", "")])) world_posts
    = (Responded (http_response 400 (Text "Missing userId")), world_posts).
Proof.
  split; [|split].
  - apply (proj1 (proj2 (proj2 (proj2
             (empty_parameter_is_missing (GET [("userId", ""); ("postId", "p1")])
                world_p1_failing))))).
    left. right. reflexivity.
  - apply (proj2 (proj2 (proj2 (proj2
             (empty_parameter_is_missing (GET [("userId", "u1")]) world_u1))))).
    right. left. reflexivity.
  - apply (proj1 (proj2 (empty_parameter_is_missing (GET [("userId", "")]) world_posts))).
    right. reflexivity.
Defined.

(** ** getPosts and getAllPosts *)

Lemma String_leb_trans a b c :
  String.leb a b = true -> String.leb b c = true -> String.leb a c = true.
Proof.
  unfold String.leb.
  destruct (String.compare a b) eqn:Eab; try discriminate; intros _;
    destruct (String.compare b c) eqn:Ebc; try discriminate; intros _.
  - apply String_as_OT.cmp_eq in Eab, Ebc. subst.
    pose proof (proj2 (String_as_OT.cmp_eq c c) eq_refl) as H.
    unfold String_as_OT.cmp in H. rewrite H. reflexivity.
  - apply String_as_OT.cmp_eq in Eab. subst. unfold String_as_OT.cmp in Ebc.
    rewrite Ebc. reflexivity.
  - apply String_as_OT.cmp_eq in Ebc. subst. unfold String_as_OT.cmp in Eab.
    rewrite Eab. reflexivity.
  - apply String_as_OT.cmp_lt in Eab, Ebc.
    pose proof (String_as_OT.lt_trans _ _ _ Eab Ebc) as H.
    apply String_as_OT.cmp_lt in H. unfold String_as_OT.cmp in H.
    rewrite H. reflexivity.
Qed.

Lemma key_leb_total a b : key_leb a b = true \/ key_leb b a = true.
Proof.
  destruct a as [[| x | x | x | x | x]|], b as [[| y | y | y | y | y]|];
    cbn; auto.
  - destruct x, y; cbn; auto.
  - destruct (Z.leb_spec x y); [auto|]. right. apply Z.leb_le. lia.
  - apply String.leb_total.
Qed.

Lemma key_leb_trans a b c :
  key_leb a b = true -> key_leb b c = true -> key_leb a c = true.
Proof.
  destruct a as [[| x | x | x | x | x]|], b as [[| y | y | y | y | y]|],
           c as [[| z | z | z | z | z]|];
    cbn; try discriminate; try reflexivity.
  - destruct x, y, z; cbn; auto.
  - intros H1 H2. apply Z.leb_le in H1, H2. apply Z.leb_le. lia.
  - apply String_leb_trans.
Qed.

#[global] Instance desc_total field : Total (desc field).
Proof. intros a b. unfold desc. destruct (key_leb_total (assoc_get field a) (assoc_get field b)); auto. Qed.

#[global] Instance desc_trans field : Transitive (desc field).
Proof. intros a b c H1 H2. unfold desc in *. eapply key_leb_trans; eassumption. Qed.

(** Between timestamps, [desc] is the reverse of the order of strings. *)
Lemma desc_createdAt a b ta tb :
  assoc_get "createdAt" a = Some (JStr ta) ->
  assoc_get "createdAt" b = Some (JStr tb) ->
  desc "createdAt" a b <-> String.leb tb ta = true.
Proof. intros Ha Hb. unfold desc. rewrite Ha, Hb. reflexivity. Qed.

Lemma query_items_eq c u field w :
  query_items c u field w =
    (if next_fault w then Raise ServiceError
     else Ok (merge_sort (desc field) (where_userId u (container c w))),
     after_call (query_items_call c u) w).
Proof.
  unfold query_items, bind, get_world. rewrite store_call_eq.
  destruct (next_fault w); [reflexivity|].
  rewrite after_call_container. reflexivity.
Qed.

Lemma where_userId_In u docs p :
  In p (where_userId (Some u) docs) <->
  In p docs /\ assoc_get "userId" p = Some (JStr u).
Proof.
  unfold where_userId. rewrite List.filter_In. split; intros [Hin H]; (split; [exact Hin|]).
  - destruct (assoc_get "userId" p) as [v|]; [|discriminate].
    apply scalar_eqb_eq in H. congruence.
  - rewrite H. cbn. apply String.eqb_refl.
Qed.

(** C5: when the query is served, getPosts answers 200 with a JSON array
    holding exactly the posts whose userId is the one given, and
    getAllPosts with one holding every post of every user; both arrays are
    in descending order of createdAt. *)
Theorem getPosts_getAllPosts req w :
  next_fault w = false ->
  (forall user_id,
      py_nonempty (assoc_get "userId" (params req)) = Some user_id ->
      exists items w',
        serve (getPosts req) w
          = (Responded (http_response 200 (Json (JArr (map JObj items)))), w') /\
        Permutation items (where_userId (Some user_id) (post_docs w)) /\
        (forall p, In p items <->
                   In p (post_docs w) /\ assoc_get "userId" p = Some (JStr user_id)) /\
        StronglySorted (desc "createdAt") items) /\
  (exists items w',
      serve (getAllPosts req) w
        = (Responded (http_response 200 (Json (JArr (map JObj items)))), w') /\
      Permutation items (post_docs w) /\
      StronglySorted (desc "createdAt") items).
Proof.
  intros Hnf. split.
  - intros user_id Hu.
    exists (merge_sort (desc "createdAt") (where_userId (Some user_id) (post_docs w))).
    eexists. split.
    { unfold serve, getPosts. rewrite Hu. unfold bind. rewrite query_items_eq, Hnf.
      reflexivity. }
    split; [apply merge_sort_Permutation|].
    split; [|apply StronglySorted_merge_sort; apply _].
    intros p. rewrite <- where_userId_In. split; apply Permutation_in.
    + apply merge_sort_Permutation.
    + symmetry. apply merge_sort_Permutation.
  - exists (merge_sort (desc "createdAt") (post_docs w)). eexists. split.
    { unfold serve, getAllPosts, bind. rewrite query_items_eq, Hnf. reflexivity. }
    split; [apply merge_sort_Permutation|].
    apply StronglySorted_merge_sort; apply _.
Qed.

Lemma getPosts_getAllPosts_witness :
  fst (serve (getPosts (GET [("userId", "u1")])) world_posts)
    = Responded (http_response 200 (Json (JArr (map JObj
        [ post_doc "p3" (JStr "u1") (JStr "third") (JStr "") [] "2024-05-03T08:00:00+00:00";
          post_doc "p1" (JStr "u1") (JStr "first") (JStr "") [] "2024-05-01T08:00:00+00:00" ])))) /\
  exists items w',
    serve (getPosts (GET [("userId", "u1")])) world_posts
      = (Responded (http_response 200 (Json (JArr (map JObj items)))), w') /\
    StronglySorted (desc "createdAt") items.
Proof.
  split; [vm_compute; reflexivity|].
  destruct (getPosts_getAllPosts (GET [("userId", "u1")]) world_posts eq_refl)
    as [Hposts _].
  destruct (Hposts "u1" eq_refl) as (items & w' & E & _ & _ & Hsorted).
  exists items, w'. split; [exact E | exact Hsorted].
Defined.

(** ** The scenario of the specification, run on the model *)

(** Upload of [a.png] by u1, a post of u1 that attaches it, the same post
    tried by u2, then a deleteMedia whose blob delete fails and its retry. *)
Example upload_post_delete_scenario :
  let w1 := snd (serve (uploadMedia "m1" "2024-05-01T10:00:00+00:00" upload_u1)
                   empty_world) in
  let post u := POST_json (JObj [("userId", JStr u); ("title", JStr "T");
                                 ("media", JArr [JStr "m1"])]) in
  let w2 := snd (serve (deleteMedia delete_m1) (set_faults [false; true] w1)) in
  media_docs w1 = [media_m1] /\
  status_of (fst (serve (createPost "p1" "2024-05-02T09:00:00+00:00" (post "u1")) w1)) = 201 /\
  fst (serve (createPost "p1" "2024-05-02T09:00:00+00:00" (post "u2")) w1)
    = Responded (http_response 404
                   (FText "media not found or not owned by user: " (JStr "m1"))) /\
  fst (serve (deleteMedia delete_m1) (set_faults [false; true] w1))
    = Responded (http_response 500 (Text "failed to delete media blob")) /\
  media_docs w2 = [media_m1] /\
  fst (serve (deleteMedia delete_m1) w2) = Responded (http_response 204 NoBody) /\
  media_docs (snd (serve (deleteMedia delete_m1) w2)) = [].
Proof. vm_compute. repeat split. Qed.

(** * Further properties of the handlers *)

(** ** The handlers, run *)

Lemma uploadMedia_run media_id now req user_id file w :
  py_nonempty (assoc_get "userId" (form req)) = Some user_id ->
  py_file (assoc_get "file" (files req)) = Some file ->
  let name := blob_name user_id media_id (filename file) in
  let item := media_item media_id now user_id file in
  let w1 := after_call (upload_blob_call name) w in
  let w2 := set_blobs (<[name := blob_of file]> (blobs w)) w1 in
  let w3 := after_call (upsert_item_call COSMOS_MEDIA_CONTAINER item) w2 in
  serve (uploadMedia media_id now req) w =
    if next_fault w then (Unhandled ServiceError, w1)
    else if next_fault w1 then (Unhandled ServiceError, w3)
    else (Responded (http_response 201 (Json (JObj item))),
          set_container COSMOS_MEDIA_CONTAINER
            (remove_doc media_id (JStr user_id) (media_docs w) ++ [item]) w3).
Proof.
  intros Hu Hf. cbv zeta. unfold serve, uploadMedia. rewrite Hu, Hf.
  unfold bind. rewrite upload_blob_eq. cbv zeta.
  destruct (next_fault w); [reflexivity|].
  change (user_id +:+ "/" +:+ media_id +:+ "-" +:+ filename file)
    with (blob_name user_id media_id (filename file)).
  match goal with
  | |- context [upsert_item _ ?d] => change d with (media_item media_id now user_id file)
  end.
  rewrite (upsert_item_eq _ _ media_id (JStr user_id)); [|reflexivity]. cbv zeta.
  change (next_fault (set_blobs ?b ?x)) with (next_fault x).
  destruct (next_fault (after_call _ w)); reflexivity.
Qed.

Lemma deleteMedia_run req user_id media_id w :
  py_nonempty (assoc_get "userId" (params req)) = Some user_id ->
  py_nonempty (assoc_get "mediaId" (params req)) = Some media_id ->
  let w1 := after_call (read_item_call COSMOS_MEDIA_CONTAINER media_id (JStr user_id)) w in
  serve (deleteMedia req) w =
    if next_fault w then (Responded (http_response 404 (Text "media not found")), w1)
    else
      match lookup_doc media_id (JStr user_id) (media_docs w) with
      | None => (Responded (http_response 404 (Text "media not found")), w1)
      | Some d =>
          if negb (py_truthy (dict_get "blobName" JNull d)) then
            (Responded missing_blobname, w1)
          else
            match dict_get "blobName" JNull d with
            | JStr n =>
                let w2 := after_call (delete_blob_call n) w1 in
                if next_fault w1 then (Responded blob_delete_failed, w2)
                else
                  match blobs w !! n with
                  | None => (Responded blob_delete_failed, w2)
                  | Some _ =>
                      let w3 := set_blobs (delete n (blobs w)) w2 in
                      let w4 := after_call (delete_item_call COSMOS_MEDIA_CONTAINER
                                              media_id (JStr user_id)) w3 in
                      if next_fault w2 then (Responded doc_delete_failed, w4)
                      else (Responded (http_response 204 NoBody),
                            set_container COSMOS_MEDIA_CONTAINER
                              (remove_doc media_id (JStr user_id) (media_docs w)) w4)
                  end
            | _ => (Responded blob_delete_failed, w1)
            end
      end.
Proof.
  intros Hu Hm. cbv zeta. unfold serve. rewrite (deleteMedia_params _ _ _ Hu Hm).
  unfold bind at 1. unfold try_except at 1. rewrite read_item_eq.
  destruct (next_fault w); [reflexivity|]. cbn [container].
  destruct (lookup_doc media_id (JStr user_id) (media_docs w)) as [d|] eqn:El;
    [|reflexivity].
  cbv beta iota zeta.
  destruct (py_truthy (dict_get "blobName" JNull d)); cbn [negb]; [|reflexivity].
  unfold bind, try_except.
  destruct (dict_get "blobName" JNull d) as [| | |n| |]; try reflexivity.
  rewrite delete_blob_eq. cbv zeta.
  destruct (next_fault (after_call _ w)); [reflexivity|].
  change (blobs (after_call ?c w)) with (blobs w).
  destruct (blobs w !! n); [|reflexivity].
  rewrite delete_item_eq. cbv zeta.
  change (next_fault (set_blobs ?b ?x)) with (next_fault x).
  destruct (next_fault (after_call (delete_blob_call n) _)); [reflexivity|].
  cbn [container]. change (media_docs (set_blobs ?b (after_call ?c1 (after_call ?c2 w))))
    with (media_docs w).
  rewrite El. reflexivity.
Qed.

Lemma query_run (c : Container) (u : option string) (field : string) w :
  serve (items <- query_items c u field ;;
         ret (http_response 200 (Json (JArr (map JObj items))))) w =
    (if next_fault w then Unhandled ServiceError
     else Responded (http_response 200 (Json (JArr (map JObj
            (merge_sort (desc field) (where_userId u (container c w))))))),
     after_call (query_items_call c u) w).
Proof.
  unfold serve, bind. rewrite query_items_eq.
  destruct (next_fault w); reflexivity.
Qed.

(** ** What each handler can change *)

Lemma getPosts_effect req w : same_stores w (snd (serve (getPosts req) w)).
Proof.
  unfold getPosts. destruct (py_nonempty _); [|apply same_stores_refl].
  rewrite query_run. apply after_call_same.
Qed.

Lemma getAllPosts_effect req w : same_stores w (snd (serve (getAllPosts req) w)).
Proof. unfold getAllPosts. rewrite query_run. apply after_call_same. Qed.

Lemma getUserMedia_effect req w : same_stores w (snd (serve (getUserMedia req) w)).
Proof.
  unfold getUserMedia. destruct (py_nonempty _); [|apply same_stores_refl].
  rewrite query_run. apply after_call_same.
Qed.

(** The media phase of [createPost] reads only; its early answer is a 404. *)
Lemma media_phase_inv uid media r w w1 :
  (if py_truthy media then
     match py_iter media with
     | Some ms => load_media uid ms []
     | None => raise TypeError
     end
   else ret (inr [])) w = (r, w1) ->
  same_stores w w1 /\
  match r with
  | Ok (inl resp) => status_code resp = 404
  | _ => True
  end.
Proof.
  destruct (py_truthy media).
  - destruct (py_iter media) as [ms|].
    + intros E. apply load_media_inv in E as [Hs Hr]. split; [exact Hs|].
      destruct r as [[resp|out]|e]; [|exact I|exact I].
      destruct Hr as (m & _ & ->). reflexivity.
    + intros E. inversion E; subst. split; [apply same_stores_refl | exact I].
  - intros E. inversion E; subst. split; [apply same_stores_refl | exact I].
Qed.

(** [createPost] writes at most one document, the Post of its 201. *)
Lemma createPost_effect post_id now req w o w' :
  serve (createPost post_id now req) w = (o, w') ->
  media_docs w' = media_docs w /\ blobs w' = blobs w /\
  ((status_of o <> 201 /\ post_docs w' = post_docs w)
   \/ exists body refs,
        json_body req = Some (JObj body) /\
        lookup_doc post_id (dict_get "userId" JNull body) (post_docs w) = None /\
        let doc := post_doc post_id (dict_get "userId" JNull body)
                     (dict_get "title" JNull body)
                     (dict_get "caption" (JStr "") body) refs now in
        o = Responded (http_response 201 (Json (JObj doc))) /\
        post_docs w' = post_docs w ++ [doc]).
Proof.
  unfold serve.
  destruct (json_body req) as [b|] eqn:Hb.
  2:{ unfold createPost. rewrite Hb. cbn. intros H; inversion H; subst.
      repeat split. left. split; [discriminate | reflexivity]. }
  destruct b as [| | | | |body];
    try (unfold createPost; rewrite Hb; cbn; intros H; inversion H; subst;
         repeat split; left; split; [discriminate | reflexivity]).
  rewrite (createPost_obj _ _ _ _ Hb). unfold bind.
  match goal with
  | |- context [match ?ph w with _ => _ end] => destruct (ph w) as [r w1] eqn:E
  end.
  apply media_phase_inv in E as [(Hm & Hp & Hbl) Hr].
  destruct r as [[resp|refs]|e].
  - cbn. intros H; inversion H; subst. repeat split; try assumption.
    left. split; [cbn; rewrite Hr; discriminate | exact Hp].
  - rewrite write_post_refs. destruct (next_fault w1).
    { intros H; inversion H; subst. repeat split; try assumption.
      left. split; [discriminate | exact Hp]. }
    destruct (lookup_doc post_id (dict_get "userId" JNull body) (post_docs w1)) eqn:El.
    { intros H; inversion H; subst. repeat split; try assumption.
      left. split; [discriminate | exact Hp]. }
    intros H; inversion H; subst. split; [exact Hm|]. split; [exact Hbl|].
    right. exists body, refs. split; [reflexivity|]. rewrite <- Hp.
    split; [exact El|]. cbv zeta. split; reflexivity.
  - intros H; inversion H; subst. repeat split; try assumption.
    left. split; [discriminate | exact Hp].
Qed.

(** [deletePost] always answers, and removes a post only with its 204. *)
Lemma deletePost_effect req w o w' :
  serve (deletePost req) w = (o, w') ->
  media_docs w' = media_docs w /\ blobs w' = blobs w /\
  exists r, o = Responded r /\
    ((status_code r = 400 \/ status_code r = 404) /\ post_docs w' = post_docs w
     \/ r = http_response 204 NoBody /\
        exists user_id post_id p,
          py_nonempty (assoc_get "userId" (params req)) = Some user_id /\
          py_nonempty (assoc_get "postId" (params req)) = Some post_id /\
          lookup_doc post_id (JStr user_id) (post_docs w) = Some p /\
          post_docs w' = remove_doc post_id (JStr user_id) (post_docs w)).
Proof.
  destruct (py_nonempty (assoc_get "userId" (params req))) as [user_id|] eqn:Hu.
  2:{ unfold serve, deletePost. rewrite Hu. cbn. intros H; inversion H; subst.
      repeat split. eexists. split; [reflexivity|]. left. cbn. auto. }
  destruct (py_nonempty (assoc_get "postId" (params req))) as [post_id|] eqn:Hp.
  2:{ unfold serve, deletePost. rewrite Hu, Hp. cbn. intros H; inversion H; subst.
      repeat split. eexists. split; [reflexivity|]. left. cbn. auto. }
  rewrite (deletePost_run _ _ _ _ Hu Hp). cbv zeta.
  destruct (next_fault w).
  { intros H; inversion H; subst. repeat split.
    eexists. split; [reflexivity|]. left. cbn. auto. }
  destruct (lookup_doc post_id (JStr user_id) (post_docs w)) as [p|] eqn:El;
    intros H; inversion H; subst; repeat split;
    (eexists; split; [reflexivity|]).
  - right. split; [reflexivity|]. exists user_id, post_id, p. auto.
  - left. cbn. auto.
Qed.

(** [deleteMedia] always answers, and removes the document only with its
    204, after the blob. *)
Lemma deleteMedia_effect req w o w' :
  serve (deleteMedia req) w = (o, w') ->
  post_docs w' = post_docs w /\
  exists r, o = Responded r /\
    ((status_code r = 400 \/ status_code r = 404 \/ status_code r = 500) /\
     media_docs w' = media_docs w
     \/ r = http_response 204 NoBody /\
        exists user_id media_id d n,
          py_nonempty (assoc_get "userId" (params req)) = Some user_id /\
          py_nonempty (assoc_get "mediaId" (params req)) = Some media_id /\
          lookup_doc media_id (JStr user_id) (media_docs w) = Some d /\
          assoc_get "blobName" d = Some (JStr n) /\ n <> "" /\
          is_Some (blobs w !! n) /\
          media_docs w' = remove_doc media_id (JStr user_id) (media_docs w) /\
          blobs w' = delete n (blobs w)).
Proof.
  destruct (py_nonempty (assoc_get "userId" (params req))) as [user_id|] eqn:Hu.
  2:{ unfold serve, deleteMedia. rewrite Hu. cbn. intros H; inversion H; subst.
      split; [reflexivity|]. eexists. split; [reflexivity|]. left. cbn. auto. }
  destruct (py_nonempty (assoc_get "mediaId" (params req))) as [media_id|] eqn:Hm.
  2:{ unfold serve, deleteMedia. rewrite Hu, Hm. cbn. intros H; inversion H; subst.
      split; [reflexivity|]. eexists. split; [reflexivity|]. left. cbn. auto. }
  rewrite (deleteMedia_run _ _ _ _ Hu Hm). cbv zeta.
  assert (Hkeep : forall r w1,
            media_docs w1 = media_docs w -> post_docs w1 = post_docs w ->
            (status_code r = 400 \/ status_code r = 404 \/ status_code r = 500) ->
            (Responded r, w1) = (o, w') ->
            post_docs w' = post_docs w /\
            exists r0, o = Responded r0 /\
              ((status_code r0 = 400 \/ status_code r0 = 404 \/ status_code r0 = 500) /\
               media_docs w' = media_docs w
               \/ r0 = http_response 204 NoBody /\
                  exists user_id0 media_id0 d n,
                    Some user_id = Some user_id0 /\ Some media_id = Some media_id0 /\
                    lookup_doc media_id0 (JStr user_id0) (media_docs w) = Some d /\
                    assoc_get "blobName" d = Some (JStr n) /\ n <> "" /\
                    is_Some (blobs w !! n) /\
                    media_docs w' = remove_doc media_id0 (JStr user_id0) (media_docs w) /\
                    blobs w' = delete n (blobs w))).
  { intros r w1 Hmd Hpd Hst H. inversion H; subst.
    split; [exact Hpd|]. exists r. split; [reflexivity|]. left. auto. }
  destruct (next_fault w); [apply Hkeep; [reflexivity | reflexivity | cbn; auto]|].
  destruct (lookup_doc media_id (JStr user_id) (media_docs w)) as [d|] eqn:El;
    [|apply Hkeep; [reflexivity | reflexivity | cbn; auto]].
  destruct (py_truthy (dict_get "blobName" JNull d)) eqn:Ht; cbn [negb];
    [|apply Hkeep; [reflexivity | reflexivity | cbn; auto]].
  destruct (dict_get "blobName" JNull d) as [| | |n| |] eqn:Eb;
    try (apply Hkeep; [reflexivity | reflexivity | cbn; auto]).
  destruct (next_fault (after_call _ w)); [apply Hkeep; [reflexivity | reflexivity | cbn; auto]|].
  destruct (blobs w !! n) as [bl|] eqn:Ebl; [|apply Hkeep; [reflexivity | reflexivity | cbn; auto]].
  destruct (next_fault (after_call (delete_blob_call n) _));
    [apply Hkeep; [reflexivity | reflexivity | cbn; auto]|].
  intros H; inversion H; subst. split; [reflexivity|].
  eexists. split; [reflexivity|]. right. split; [reflexivity|].
  exists user_id, media_id, d, n. repeat split; try reflexivity; try assumption.
  - unfold dict_get in Eb. destruct (assoc_get "blobName" d); [congruence | discriminate].
  - intros ->. cbn in Ht. discriminate.
  - exists bl. exact Ebl.
Qed.

(** [uploadMedia] writes the blob, then the document of its 201. *)
Lemma uploadMedia_effect media_id now req w o w' :
  serve (uploadMedia media_id now req) w = (o, w') ->
  post_docs w' = post_docs w /\
  ((status_of o <> 201 /\ media_docs w' = media_docs w)
   \/ exists user_id file,
        py_nonempty (assoc_get "userId" (form req)) = Some user_id /\
        py_file (assoc_get "file" (files req)) = Some file /\
        o = Responded (http_response 201
                         (Json (JObj (media_item media_id now user_id file)))) /\
        media_docs w' = remove_doc media_id (JStr user_id) (media_docs w)
                          ++ [media_item media_id now user_id file] /\
        blobs w' = <[blob_name user_id media_id (filename file) := blob_of file]> (blobs w)).
Proof.
  destruct (py_nonempty (assoc_get "userId" (form req))) as [user_id|] eqn:Hu.
  2:{ unfold serve, uploadMedia. rewrite Hu. cbn. intros H; inversion H; subst.
      split; [reflexivity|]. left. split; [discriminate | reflexivity]. }
  destruct (py_file (assoc_get "file" (files req))) as [file|] eqn:Hf.
  2:{ unfold serve, uploadMedia. rewrite Hu, Hf. cbn. intros H; inversion H; subst.
      split; [reflexivity|]. left. split; [discriminate | reflexivity]. }
  rewrite (uploadMedia_run _ _ _ _ _ _ Hu Hf). cbv zeta.
  destruct (next_fault w).
  { intros H; inversion H; subst. split; [reflexivity|]. left.
    split; [discriminate | reflexivity]. }
  destruct (next_fault (after_call _ w)).
  { intros H; inversion H; subst. split; [reflexivity|]. left.
    split; [discriminate | reflexivity]. }
  intros H; inversion H; subst. split; [reflexivity|]. right.
  exists user_id, file. repeat split.
Qed.

(** X1: the three query handlers change no store; createPost and deletePost
    leave media documents and blobs alone; deleteMedia and uploadMedia leave
    the posts alone, so a Post keeps its media snapshot when the media item
    is deleted.  This holds whatever the outcome and the store faults. *)
Theorem handlers_frame media_id post_id now req w :
  same_stores w (snd (serve (getPosts req) w)) /\
  same_stores w (snd (serve (getAllPosts req) w)) /\
  same_stores w (snd (serve (getUserMedia req) w)) /\
  (media_docs (snd (serve (createPost post_id now req) w)) = media_docs w /\
   blobs (snd (serve (createPost post_id now req) w)) = blobs w) /\
  (media_docs (snd (serve (deletePost req) w)) = media_docs w /\
   blobs (snd (serve (deletePost req) w)) = blobs w) /\
  post_docs (snd (serve (deleteMedia req) w)) = post_docs w /\
  post_docs (snd (serve (uploadMedia media_id now req) w)) = post_docs w.
Proof.
  split; [apply getPosts_effect|]. split; [apply getAllPosts_effect|].
  split; [apply getUserMedia_effect|].
  split.
  { destruct (serve (createPost post_id now req) w) as [o w'] eqn:E.
    apply createPost_effect in E as (Hm & Hb & _). split; assumption. }
  split.
  { destruct (serve (deletePost req) w) as [o w'] eqn:E.
    apply deletePost_effect in E as (Hm & Hb & _). split; assumption. }
  split.
  { destruct (serve (deleteMedia req) w) as [o w'] eqn:E.
    apply deleteMedia_effect in E as (Hp & _). exact Hp. }
  destruct (serve (uploadMedia media_id now req) w) as [o w'] eqn:E.
  apply uploadMedia_effect in E as (Hp & _). exact Hp.
Qed.

(** X2: deletePost and deleteMedia never let the exception of a store call
    escape: for every request, store content and fault schedule they
    answer, deletePost with 204, 400 or 404 and deleteMedia with 204, 400,
    404 or 500. *)
Theorem delete_handlers_always_respond req w :
  (exists r, fst (serve (deletePost req) w) = Responded r /\
             (status_code r = 204 \/ status_code r = 400 \/ status_code r = 404)) /\
  (exists r, fst (serve (deleteMedia req) w) = Responded r /\
             (status_code r = 204 \/ status_code r = 400 \/ status_code r = 404
              \/ status_code r = 500)).
Proof.
  split.
  - destruct (serve (deletePost req) w) as [o w'] eqn:E.
    apply deletePost_effect in E as (_ & _ & r & -> & [[[H|H] _]|[-> _]]);
      exists r || exists (http_response 204 NoBody); cbn; auto.
  - destruct (serve (deleteMedia req) w) as [o w'] eqn:E.
    apply deleteMedia_effect in E as (_ & r & -> & [[[H|[H|H]] _]|[-> _]]);
      exists r || exists (http_response 204 NoBody); cbn; auto 6.
Qed.

(** ** deletePost removes one post *)

Lemma has_key_true i pk d :
  has_key i pk d = true ->
  assoc_get "id" d = Some (JStr i) /\ assoc_get "userId" d = Some pk.
Proof.
  unfold has_key.
  destruct (assoc_get "id" d) as [v|]; [|discriminate].
  destruct (assoc_get "userId" d) as [u|]; [|discriminate].
  intros H. apply andb_prop in H as [H1 H2].
  apply scalar_eqb_eq in H1, H2. subst. split; reflexivity.
Qed.

Lemma remove_doc_In i pk docs q :
  In q (remove_doc i pk docs) <-> In q docs /\ has_key i pk q = false.
Proof.
  unfold remove_doc. rewrite List.filter_In, negb_true_iff. reflexivity.
Qed.

(** X3: a deletePost answered 204 found the post of (postId, userId) and
    removed the documents of that key only: every post of another user, and
    every post with another id, is still there. *)
Theorem deletePost_removes_only_target req w w1 :
  serve (deletePost req) w = (Responded (http_response 204 NoBody), w1) ->
  exists user_id post_id p,
    py_nonempty (assoc_get "userId" (params req)) = Some user_id /\
    py_nonempty (assoc_get "postId" (params req)) = Some post_id /\
    lookup_doc post_id (JStr user_id) (post_docs w) = Some p /\
    (forall q, In q (post_docs w1) <->
               In q (post_docs w) /\ has_key post_id (JStr user_id) q = false) /\
    (forall q, In q (post_docs w) ->
               assoc_get "userId" q <> Some (JStr user_id) \/
               assoc_get "id" q <> Some (JStr post_id) ->
               In q (post_docs w1)).
Proof.
  intros E.
  apply deletePost_effect in E as (_ & _ & r & Hr & [[[H|H] _]|[_ Hdel]]);
    try (inversion Hr; subst r; cbn in H; discriminate).
  destruct Hdel as (user_id & post_id & p & Hu & Hp & Hl & Hposts).
  exists user_id, post_id, p. repeat (split; [assumption|]).
  rewrite Hposts. split; [intros q; apply remove_doc_In|].
  intros q Hin Hother. apply remove_doc_In. split; [exact Hin|].
  destruct (has_key post_id (JStr user_id) q) eqn:Hk; [|reflexivity].
  apply has_key_true in Hk as [Hi Hpk]. destruct Hother as [Hne|Hne]; congruence.
Qed.

Lemma deletePost_removes_only_target_witness :
  exists w1,
    serve (deletePost delete_p1) (set_faults [] world_p1_failing)
      = (Responded (http_response 204 NoBody), w1) /\
    forall q, In q (post_docs w1) <->
              In q [post_p1] /\ has_key "p1" (JStr "u1") q = false.
Proof.
  eexists. split; [reflexivity|].
  destruct (deletePost_removes_only_target delete_p1 (set_faults [] world_p1_failing)
              _ eq_refl)
    as (user_id & post_id & p & Hu & Hp & _ & Hiff & _).
  cbn in Hu, Hp. inversion Hu; inversion Hp; subst. exact Hiff.
Defined.

(** ** deleteMedia: success, retry, and the document that cannot be deleted *)

Lemma py_truthy_JStr n : n <> "" -> py_truthy (JStr n) = true.
Proof.
  intros Hn. cbn. destruct (String.eqb n "") eqn:E; [|reflexivity].
  apply String.eqb_eq in E. contradiction.
Qed.

Lemma deletable_same_stores w w' user_id media_id :
  same_stores w w' -> deletable w user_id media_id -> deletable w' user_id media_id.
Proof.
  intros (Hm & _ & Hb) (d & n & Hl & Hn & Hne & Hblob).
  exists d, n. rewrite Hm, Hb. auto.
Qed.

Lemma deleteMedia_deletable req user_id media_id w :
  py_nonempty (assoc_get "userId" (params req)) = Some user_id ->
  py_nonempty (assoc_get "mediaId" (params req)) = Some media_id ->
  no_fault w -> deletable w user_id media_id ->
  exists w', serve (deleteMedia req) w = (Responded (http_response 204 NoBody), w') /\
             media_docs w' = remove_doc media_id (JStr user_id) (media_docs w) /\
             post_docs w' = post_docs w.
Proof.
  intros Hu Hm Hnf (d & n & Hl & Hn & Hne & [bl Hbl]).
  rewrite (deleteMedia_run _ _ _ _ Hu Hm). cbv zeta.
  rewrite (no_fault_next _ Hnf), Hl.
  assert (Eb : dict_get "blobName" JNull d = JStr n)
    by (unfold dict_get; rewrite Hn; reflexivity).
  rewrite Eb, (py_truthy_JStr _ Hne). cbn [negb].
  pose proof (no_fault_after (read_item_call COSMOS_MEDIA_CONTAINER media_id
                                (JStr user_id)) w Hnf) as Hnf1.
  rewrite (no_fault_next _ Hnf1), Hbl.
  rewrite (no_fault_next _ (no_fault_after (delete_blob_call n) _ Hnf1)).
  eexists. split; [reflexivity|]. split; reflexivity.
Qed.

(** X4: when no store call fails, deleteMedia answers 204 exactly when the
    media document of (mediaId, userId) exists, its blobName is a non-empty
    string, and a blob of that name is in the Blob Store. *)
Theorem deleteMedia_204_iff req user_id media_id w :
  py_nonempty (assoc_get "userId" (params req)) = Some user_id ->
  py_nonempty (assoc_get "mediaId" (params req)) = Some media_id ->
  no_fault w ->
  (fst (serve (deleteMedia req) w) = Responded (http_response 204 NoBody)
   <-> deletable w user_id media_id).
Proof.
  intros Hu Hm Hnf. split.
  - destruct (serve (deleteMedia req) w) as [o w'] eqn:E. cbn. intros ->.
    apply deleteMedia_effect in E as (_ & r & Hr & [[Hst _]|[_ Hdel]]).
    + inversion Hr; subst r. cbn in Hst. destruct Hst as [H|[H|H]]; discriminate.
    + destruct Hdel as (u & m & d & n & Hu' & Hm' & Hl & Hn & Hne & Hbl & _).
      rewrite Hu in Hu'. rewrite Hm in Hm'. inversion Hu'; inversion Hm'; subst.
      exists d, n. auto.
  - intros Hd.
    destruct (deleteMedia_deletable _ _ _ _ Hu Hm Hnf Hd) as (w' & E & _).
    rewrite E. reflexivity.
Qed.

Lemma deleteMedia_204_iff_witness :
  fst (serve (deleteMedia delete_m1) world_u1) = Responded (http_response 204 NoBody)
  /\ ~ deletable world_m1_orphan "u1" "m1".
Proof.
  split.
  - apply (proj2 (deleteMedia_204_iff delete_m1 "u1" "m1" world_u1
                    eq_refl eq_refl (List.Forall_nil _))).
    exists media_m1, "u1/m1-a.png". repeat split; try reflexivity.
    + discriminate.
    + eexists. reflexivity.
  - intros Hd.
    apply (proj2 (deleteMedia_204_iff delete_m1 "u1" "m1" world_m1_orphan
                    eq_refl eq_refl (List.Forall_nil _))) in Hd.
    vm_compute in Hd. discriminate.
Defined.

Lemma orphaned_same_stores w w' user_id media_id :
  same_stores w w' -> orphaned w user_id media_id -> orphaned w' user_id media_id.
Proof.
  intros (Hm & _ & Hb) (d & n & Hl & Hn & Hne & Hblob).
  exists d, n. rewrite Hm, Hb. auto.
Qed.

(** On an orphaned document every deleteMedia fails before the document
    delete, and changes no store. *)
Lemma deleteMedia_orphaned req user_id media_id w :
  py_nonempty (assoc_get "userId" (params req)) = Some user_id ->
  py_nonempty (assoc_get "mediaId" (params req)) = Some media_id ->
  orphaned w user_id media_id ->
  exists r w2,
    serve (deleteMedia req) w = (Responded r, w2) /\
    (r = http_response 404 (Text "media not found") \/ r = blob_delete_failed) /\
    same_stores w w2.
Proof.
  intros Hu Hm (d & n & Hl & Hn & Hne & Hblob).
  rewrite (deleteMedia_run _ _ _ _ Hu Hm). cbv zeta.
  destruct (next_fault w).
  { eexists; eexists. split; [reflexivity|]. split; [left; reflexivity | repeat split]. }
  rewrite Hl. unfold dict_get. rewrite Hn, (py_truthy_JStr _ Hne). cbn [negb].
  destruct (next_fault _).
  { eexists; eexists. split; [reflexivity|]. split; [right; reflexivity | repeat split]. }
  rewrite Hblob.
  eexists; eexists. split; [reflexivity|]. split; [right; reflexivity | repeat split].
Qed.

Lemma retries_orphaned req user_id media_id fss w :
  py_nonempty (assoc_get "userId" (params req)) = Some user_id ->
  py_nonempty (assoc_get "mediaId" (params req)) = Some media_id ->
  orphaned w user_id media_id ->
  same_stores w (retries req fss w).
Proof.
  intros Hu Hm. revert w. induction fss as [|fs fss IH]; intros w Ho.
  - apply same_stores_refl.
  - cbn [retries fold_left].
    assert (Ho' : orphaned (set_faults fs w) user_id media_id).
    { apply (orphaned_same_stores w); [repeat split | exact Ho]. }
    destruct (deleteMedia_orphaned req user_id media_id _ Hu Hm Ho')
      as (r & w2 & E & _ & Hs).
    rewrite E. cbn [snd].
    assert (Hs' : same_stores w w2).
    { destruct Hs as (H1 & H2 & H3). repeat split; assumption. }
    eapply same_stores_trans; [exact Hs'|].
    apply IH. apply (orphaned_same_stores w); assumption.
Qed.

(** X5: once deleteMedia has answered 500 because the document delete
    failed after the blob delete, the document is orphaned: it is still
    stored and its blob is gone.  From then on, after any number of further
    deleteMedia calls of the same request under any store faults, the
    stores are as the failed call left them, the document is still
    orphaned, and the next deleteMedia answers 404 (the read failed) or 500
    "failed to delete media blob". *)
Theorem deleteMedia_after_failed_doc_delete req w w1 :
  serve (deleteMedia req) w = (Responded doc_delete_failed, w1) ->
  exists user_id media_id,
    py_nonempty (assoc_get "userId" (params req)) = Some user_id /\
    py_nonempty (assoc_get "mediaId" (params req)) = Some media_id /\
    media_docs w1 = media_docs w /\
    orphaned w1 user_id media_id /\
    forall fss,
      same_stores w1 (retries req fss w1) /\
      orphaned (retries req fss w1) user_id media_id /\
      forall fs, exists r w2,
        serve (deleteMedia req) (set_faults fs (retries req fss w1)) = (Responded r, w2) /\
        (r = http_response 404 (Text "media not found") \/ r = blob_delete_failed) /\
        same_stores w1 w2.
Proof.
  destruct (py_nonempty (assoc_get "userId" (params req))) as [user_id|] eqn:Hu.
  2:{ unfold serve, deleteMedia. rewrite Hu. cbn. discriminate. }
  destruct (py_nonempty (assoc_get "mediaId" (params req))) as [media_id|] eqn:Hm.
  2:{ unfold serve, deleteMedia. rewrite Hu, Hm. cbn. discriminate. }
  intros E. exists user_id, media_id. split; [reflexivity|]. split; [reflexivity|].
  assert (Hw1 : media_docs w1 = media_docs w /\ orphaned w1 user_id media_id).
  { revert E. rewrite (deleteMedia_run _ _ _ _ Hu Hm). cbv zeta.
    unfold doc_delete_failed, blob_delete_failed, missing_blobname.
    destruct (next_fault w); [discriminate|].
    destruct (lookup_doc media_id (JStr user_id) (media_docs w)) as [d|] eqn:El;
      [|discriminate].
    destruct (py_truthy (dict_get "blobName" JNull d)) eqn:Ht; cbn [negb];
      [|discriminate].
    destruct (dict_get "blobName" JNull d) as [| | |n| |] eqn:Eb; try discriminate.
    destruct (next_fault (after_call _ w)); [discriminate|].
    destruct (blobs w !! n) as [bl|] eqn:Ebl; [|discriminate].
    destruct (next_fault (after_call (delete_blob_call n) _)); [|discriminate].
    intros H. inversion H; subst w1; clear H. split; [reflexivity|].
    exists d, n. cbn [media_docs blobs set_blobs after_call set_faults log_call].
    split; [exact El|]. split.
    { unfold dict_get in Eb. destruct (assoc_get "blobName" d); [congruence | discriminate]. }
    split; [intros ->; cbn in Ht; discriminate | apply lookup_delete_eq]. }
  destruct Hw1 as [Hmd Ho]. split; [exact Hmd|]. split; [exact Ho|].
  intros fss.
  pose proof (retries_orphaned req user_id media_id fss w1 Hu Hm Ho) as Hs.
  split; [exact Hs|].
  assert (Hok : orphaned (retries req fss w1) user_id media_id)
    by (apply (orphaned_same_stores w1); assumption).
  split; [exact Hok|]. intros fs.
  destruct (deleteMedia_orphaned req user_id media_id
              (set_faults fs (retries req fss w1)) Hu Hm) as (r & w2 & E2 & Hr & Hs2).
  { apply (orphaned_same_stores (retries req fss w1)); [repeat split | exact Hok]. }
  exists r, w2. split; [exact E2|]. split; [exact Hr|].
  eapply same_stores_trans; [exact Hs|].
  destruct Hs2 as (H1 & H2 & H3). repeat split; assumption.
Qed.

Lemma deleteMedia_after_failed_doc_delete_witness :
  let w1 := snd (serve (deleteMedia delete_m1)
                   (set_faults [false; false; true] world_u1)) in
  orphaned w1 "u1" "m1" /\
  exists r w2,
    serve (deleteMedia delete_m1)
          (set_faults [] (retries delete_m1 [[]; [true]; [false; true]] w1))
      = (Responded r, w2) /\
    (r = http_response 404 (Text "media not found") \/ r = blob_delete_failed) /\
    same_stores w1 w2.
Proof.
  cbv zeta.
  destruct (deleteMedia_after_failed_doc_delete delete_m1
              (set_faults [false; false; true] world_u1)
              (snd (serve (deleteMedia delete_m1)
                      (set_faults [false; false; true] world_u1))) eq_refl)
    as (user_id & media_id & Hu & Hm & _ & Ho & Hlater).
  cbn in Hu, Hm. inversion Hu; inversion Hm; subst user_id media_id.
  split; [exact Ho|].
  destruct (Hlater [[]; [true]; [false; true]]) as (_ & _ & Hnext).
  exact (Hnext []).
Defined.

(** X6: a deleteMedia that answered 500 "failed to delete media blob" left
    documents and blobs as they were; if the blob of the document is in the
    Blob Store, the retry that meets no store failure answers 204. *)
Theorem deleteMedia_retry_after_blob_failure req user_id media_id w w1 fs :
  py_nonempty (assoc_get "userId" (params req)) = Some user_id ->
  py_nonempty (assoc_get "mediaId" (params req)) = Some media_id ->
  serve (deleteMedia req) w = (Responded blob_delete_failed, w1) ->
  same_stores w w1 /\
  (deletable w user_id media_id ->
   Forall (fun b => b = false) fs ->
   exists w2,
     serve (deleteMedia req) (set_faults fs w1)
       = (Responded (http_response 204 NoBody), w2) /\
     media_docs w2 = remove_doc media_id (JStr user_id) (media_docs w)).
Proof.
  intros Hu Hm E.
  assert (Hs : same_stores w w1).
  { revert E. rewrite (deleteMedia_run _ _ _ _ Hu Hm). cbv zeta.
    unfold doc_delete_failed, blob_delete_failed, missing_blobname.
    destruct (next_fault w); [discriminate|].
    destruct (lookup_doc media_id (JStr user_id) (media_docs w)) as [d|];
      [|discriminate].
    destruct (py_truthy (dict_get "blobName" JNull d)); cbn [negb]; [|discriminate].
    destruct (dict_get "blobName" JNull d) as [| | |n| |];
      try solve [intros H; inversion H; subst; repeat split].
    destruct (next_fault (after_call _ w));
      [intros H; inversion H; subst; repeat split|].
    destruct (blobs w !! n); [|intros H; inversion H; subst; repeat split].
    destruct (next_fault (after_call (delete_blob_call n) _)); discriminate. }
  split; [exact Hs|]. intros Hd Hfs.
  destruct (deleteMedia_deletable req user_id media_id (set_faults fs w1) Hu Hm)
    as (w2 & E2 & Hm2 & _).
  - exact Hfs.
  - apply (deletable_same_stores w); [|exact Hd].
    destruct Hs as (H1 & H2 & H3). repeat split; assumption.
  - exists w2. split; [exact E2|]. rewrite Hm2. cbn [media_docs set_faults].
    destruct Hs as (H1 & _). rewrite H1. reflexivity.
Qed.

Lemma deleteMedia_retry_after_blob_failure_witness :
  exists w2,
    serve (deleteMedia delete_m1)
          (set_faults [] (snd (serve (deleteMedia delete_m1)
                                 (set_faults [false; true] world_u1))))
      = (Responded (http_response 204 NoBody), w2) /\
    media_docs w2 = [].
Proof.
  destruct (deleteMedia_retry_after_blob_failure delete_m1 "u1" "m1"
              (set_faults [false; true] world_u1)
              (snd (serve (deleteMedia delete_m1) (set_faults [false; true] world_u1)))
              [] eq_refl eq_refl eq_refl) as [_ Hretry].
  destruct Hretry as (w2 & E & Hm).
  - exists media_m1, "u1/m1-a.png". repeat split; try reflexivity.
    + discriminate.
    + eexists. reflexivity.
  - constructor.
  - exists w2. split; [exact E | exact Hm].
Defined.

(** ** The invariant of the media collection *)

Lemma py_nonempty_Some x s : py_nonempty x = Some s -> x = Some s /\ s <> "".
Proof.
  destruct x as [t|]; [|discriminate]. cbn.
  destruct (String.eqb t "") eqn:E; [discriminate|].
  intros H; inversion H; subst. split; [reflexivity|].
  intros ->. discriminate.
Qed.

Lemma blob_name_nonempty user_id media_id file_name :
  user_id <> "" -> blob_name user_id media_id file_name <> "".
Proof. destruct user_id; [congruence | discriminate]. Qed.

Lemma Forall_remove_doc (P : dict -> Prop) i pk docs :
  Forall P docs -> Forall P (remove_doc i pk docs).
Proof.
  rewrite !Forall_forall. intros H d Hin. apply H.
  apply list_elem_of_In in Hin. apply list_elem_of_In.
  apply remove_doc_In in Hin. tauto.
Qed.

Lemma has_blobName_media_item media_id now user_id file :
  user_id <> "" -> has_blobName (media_item media_id now user_id file).
Proof.
  intros Hu. exists (blob_name user_id media_id (filename file)).
  split; [reflexivity | apply blob_name_nonempty, Hu].
Qed.

(** X7: every handler keeps the invariant that each media document carries
    a non-empty string as blobName; uploadMedia, the only writer of media
    documents, always writes one. *)
Theorem media_wf_preserved media_id post_id now req w :
  media_wf w ->
  media_wf (snd (serve (uploadMedia media_id now req) w)) /\
  media_wf (snd (serve (createPost post_id now req) w)) /\
  media_wf (snd (serve (getPosts req) w)) /\
  media_wf (snd (serve (getAllPosts req) w)) /\
  media_wf (snd (serve (getUserMedia req) w)) /\
  media_wf (snd (serve (deletePost req) w)) /\
  media_wf (snd (serve (deleteMedia req) w)).
Proof.
  intros Hwf. unfold media_wf in *.
  split.
  { destruct (serve (uploadMedia media_id now req) w) as [o w'] eqn:E. cbn.
    apply uploadMedia_effect in E as (_ & [[_ ->]|Hup]); [exact Hwf|].
    destruct Hup as (user_id & file & Hu & _ & _ & -> & _).
    apply py_nonempty_Some in Hu as [_ Hne].
    apply Forall_app. split; [apply Forall_remove_doc, Hwf|].
    constructor; [apply has_blobName_media_item, Hne | constructor]. }
  split.
  { destruct (serve (createPost post_id now req) w) as [o w'] eqn:E. cbn.
    apply createPost_effect in E as (-> & _). exact Hwf. }
  split; [destruct (getPosts_effect req w) as (-> & _); exact Hwf|].
  split; [destruct (getAllPosts_effect req w) as (-> & _); exact Hwf|].
  split; [destruct (getUserMedia_effect req w) as (-> & _); exact Hwf|].
  split.
  { destruct (serve (deletePost req) w) as [o w'] eqn:E. cbn.
    apply deletePost_effect in E as (-> & _). exact Hwf. }
  destruct (serve (deleteMedia req) w) as [o w'] eqn:E. cbn.
  apply deleteMedia_effect in E as (_ & r & _ & [[_ ->]|[_ Hdel]]); [exact Hwf|].
  destruct Hdel as (u & m & d & n & _ & _ & _ & _ & _ & _ & -> & _).
  apply Forall_remove_doc, Hwf.
Qed.

Lemma media_wf_preserved_witness :
  media_wf (snd (serve (uploadMedia "m2" "2024-05-04T10:00:00+00:00" upload_b_u1)
                   world_u1)).
Proof.
  apply (media_wf_preserved "m2" "p1" "2024-05-04T10:00:00+00:00" upload_b_u1 world_u1).
  constructor; [|constructor].
  exists "u1/m1-a.png". split; [reflexivity | discriminate].
Defined.

Lemma media_wf_owned w uid m d :
  media_wf w -> owned w uid m = Some d -> has_blobName d.
Proof.
  intros Hwf Ho. apply owned_inv in Ho as (i & _ & Hl & _).
  apply lookup_doc_key in Hl as (Hin & _).
  unfold media_wf in Hwf. rewrite Forall_forall in Hwf.
  apply Hwf, list_elem_of_In, Hin.
Qed.

(** X8: on a media collection that satisfies the invariant, the integrity
    gap cannot show: a createPost that references a missing or not-owned
    media id is answered 404 for one of the referenced ids and writes no
    Post, whatever the store faults, and deleteMedia never answers 500
    "media record missing blobname". *)
Theorem media_wf_no_integrity_gap post_id now req body ms w :
  media_wf w ->
  (json_body req = Some (JObj body) ->
   py_iter (dict_get "media" (JArr []) body) = Some ms ->
   Exists (fun m => owned w (dict_get "userId" JNull body) m = None) ms ->
   exists m w',
     In m ms /\
     serve (createPost post_id now req) w
       = (Responded (http_response 404
                       (FText "media not found or not owned by user: " m)), w') /\
     post_docs w' = post_docs w) /\
  fst (serve (deleteMedia req) w) <> Responded missing_blobname.
Proof.
  intros Hwf. split.
  - intros Hb Hi Hex.
    destruct (serve (createPost post_id now req) w) as [o w'] eqn:E.
    pose proof (createPost_cases _ _ _ _ _ _ _ _ Hb Hi E)
      as [[Hs [(m & Hin & ->)|[[_ Hnb]|[[docs HF] _]]]]|(docs & HF & _)].
    + exists m, w'. split; [exact Hin|]. split; [reflexivity | apply Hs].
    + exfalso. destruct Hnb as (m & d & _ & Ho & Hnone).
      destruct (media_wf_owned _ _ _ _ Hwf Ho) as (n & Hn & _). congruence.
    + exfalso. exact (readable_not_missing _ _ _ _ HF Hex).
    + exfalso. exact (readable_not_missing _ _ _ _ HF Hex).
  - destruct (py_nonempty (assoc_get "userId" (params req))) as [user_id|] eqn:Hu.
    2:{ unfold serve, deleteMedia. rewrite Hu. cbn. discriminate. }
    destruct (py_nonempty (assoc_get "mediaId" (params req))) as [media_id|] eqn:Hm.
    2:{ unfold serve, deleteMedia. rewrite Hu, Hm. cbn. discriminate. }
    rewrite (deleteMedia_run _ _ _ _ Hu Hm). cbv zeta.
    unfold doc_delete_failed, blob_delete_failed, missing_blobname.
    destruct (next_fault w); [cbn; discriminate|].
    destruct (lookup_doc media_id (JStr user_id) (media_docs w)) as [d|] eqn:El;
      [|cbn; discriminate].
    assert (Hd : has_blobName d).
    { apply (media_wf_owned w (JStr user_id) (JStr media_id)); assumption. }
    destruct Hd as (n & Hn & Hne).
    unfold dict_get. rewrite Hn, (py_truthy_JStr _ Hne). cbn [negb].
    destruct (next_fault _); [cbn; discriminate|].
    destruct (blobs w !! n); [|cbn; discriminate].
    destruct (next_fault _); cbn; discriminate.
Qed.

Lemma media_wf_no_integrity_gap_witness :
  exists m w',
    In m [JStr "m1"; JStr "nope"] /\
    serve (createPost "p1" "2024-05-02T09:00:00+00:00"
             (POST_json (JObj [("userId", JStr "u1");
                               ("media", JArr [JStr "m1"; JStr "nope"])])))
          world_u1
      = (Responded (http_response 404
                      (FText "media not found or not owned by user: " m)), w') /\
    post_docs w' = post_docs world_u1.
Proof.
  destruct (media_wf_no_integrity_gap "p1" "2024-05-02T09:00:00+00:00"
              (POST_json (JObj [("userId", JStr "u1");
                                ("media", JArr [JStr "m1"; JStr "nope"])]))
              [("userId", JStr "u1"); ("media", JArr [JStr "m1"; JStr "nope"])]
              [JStr "m1"; JStr "nope"] world_u1) as [Hpost _].
  - constructor; [|constructor].
    exists "u1/m1-a.png". split; [reflexivity | discriminate].
  - apply Hpost; [reflexivity | reflexivity|].
    apply Exists_cons_tl. apply Exists_cons_hd. reflexivity.
Defined.

(** ** createPost: the body *)

(** X9: createPost answers 400 exactly when the body is not valid JSON; a
    valid body that is not an object (an array, a string, null) ends as an
    unhandled AttributeError and a media value that is true or a non-zero
    number as an unhandled TypeError, both a generic 500; in the three
    cases no store call is made. *)
Theorem createPost_body_errors post_id now req w :
  (status_of (fst (serve (createPost post_id now req) w)) = 400
   <-> json_body req = None) /\
  (json_body req = None ->
   serve (createPost post_id now req) w
     = (Responded (http_response 400 (Text "Invalid JSON body")), w)) /\
  (forall b, json_body req = Some b -> (forall body, b <> JObj body) ->
   serve (createPost post_id now req) w = (Unhandled AttributeError, w)) /\
  (forall body, json_body req = Some (JObj body) ->
   py_truthy (dict_get "media" (JArr []) body) = true ->
   py_iter (dict_get "media" (JArr []) body) = None ->
   serve (createPost post_id now req) w = (Unhandled TypeError, w)).
Proof.
  assert (Hnone : json_body req = None ->
            serve (createPost post_id now req) w
              = (Responded (http_response 400 (Text "Invalid JSON body")), w)).
  { intros Hb. unfold serve, createPost. rewrite Hb. reflexivity. }
  split; [|split; [exact Hnone|split]].
  - split.
    + destruct (json_body req) as [b|] eqn:Hb; [|reflexivity].
      intros H. exfalso. exact (createPost_no_400 _ _ _ _ w Hb H).
    + intros Hb. rewrite (Hnone Hb). reflexivity.
  - intros b Hb Hno. unfold serve, createPost. rewrite Hb.
    destruct b; try reflexivity. exfalso. exact (Hno _ eq_refl).
  - intros body Hb Ht Hi. rewrite (createPost_obj _ _ _ _ Hb).
    unfold serve, bind. rewrite Ht, Hi. reflexivity.
Qed.

Lemma createPost_body_errors_witness :
  serve (createPost "p1" "2024-05-02T09:00:00+00:00" (GET [])) world_u1
    = (Responded (http_response 400 (Text "Invalid JSON body")), world_u1) /\
  serve (createPost "p1" "2024-05-02T09:00:00+00:00" (POST_json (JArr []))) world_u1
    = (Unhandled AttributeError, world_u1) /\
  serve (createPost "p1" "2024-05-02T09:00:00+00:00"
           (POST_json (JObj [("userId", JStr "u1"); ("media", JNum 7)]))) world_u1
    = (Unhandled TypeError, world_u1).
Proof.
  split; [|split].
  - apply (proj1 (proj2 (createPost_body_errors "p1" "2024-05-02T09:00:00+00:00"
                           (GET []) world_u1))).
    reflexivity.
  - apply (proj1 (proj2 (proj2 (createPost_body_errors "p1" "2024-05-02T09:00:00+00:00"
                                  (POST_json (JArr [])) world_u1))) (JArr [])).
    + reflexivity.
    + discriminate.
  - apply (proj2 (proj2 (proj2 (createPost_body_errors "p1" "2024-05-02T09:00:00+00:00"
             (POST_json (JObj [("userId", JStr "u1"); ("media", JNum 7)])) world_u1)))
             [("userId", JStr "u1"); ("media", JNum 7)]); reflexivity.
Defined.

(** X10: when the media value of the body is absent or falsy (null, false,
    0, an empty string, list or object), createPost reads no media
    document: its only store call is the create of a Post whose media list
    is empty, and that Post is stored with answer 201 when the call is
    served and the id is free. *)
Theorem createPost_without_media post_id now req body w :
  json_body req = Some (JObj body) ->
  py_truthy (dict_get "media" (JArr []) body) = false ->
  let doc := post_doc post_id (dict_get "userId" JNull body)
               (dict_get "title" JNull body)
               (dict_get "caption" (JStr "") body) [] now in
  trace (snd (serve (createPost post_id now req) w))
    = trace w ++ [create_item_call COSMOS_POST_CONTAINER doc] /\
  (next_fault w = false ->
   lookup_doc post_id (dict_get "userId" JNull body) (post_docs w) = None ->
   exists w',
     serve (createPost post_id now req) w
       = (Responded (http_response 201 (Json (JObj doc))), w') /\
     post_docs w' = post_docs w ++ [doc]).
Proof.
  intros Hb Ht. cbv zeta. rewrite (createPost_obj _ _ _ _ Hb).
  unfold serve, bind. rewrite Ht. unfold ret. rewrite write_post_refs.
  split.
  - destruct (next_fault w); [reflexivity|].
    destruct (lookup_doc _ _ _); reflexivity.
  - intros -> ->. eexists. split; reflexivity.
Qed.

Lemma createPost_without_media_witness :
  exists w',
    serve (createPost "p1" "2024-05-02T09:00:00+00:00"
             (POST_json (JObj [("userId", JStr "u1"); ("media", JNull)]))) world_u1
      = (Responded (http_response 201 (Json (JObj
           (post_doc "p1" (JStr "u1") JNull (JStr "") [] "2024-05-02T09:00:00+00:00")))),
         w') /\
    post_docs w'
      = [post_doc "p1" (JStr "u1") JNull (JStr "") [] "2024-05-02T09:00:00+00:00"].
Proof.
  destruct (createPost_without_media "p1" "2024-05-02T09:00:00+00:00"
              (POST_json (JObj [("userId", JStr "u1"); ("media", JNull)]))
              [("userId", JStr "u1"); ("media", JNull)] world_u1 eq_refl eq_refl)
    as [_ Hcreated].
  apply Hcreated; reflexivity.
Defined.

(** ** getUserMedia and failed queries *)

(** X11: when the query is served, getUserMedia answers 200 with a JSON array
    holding exactly the media documents whose userId is the one given,
    in descending order of uploadedAt; it changes no store. *)
Theorem getUserMedia_sorted req user_id w :
  py_nonempty (assoc_get "userId" (params req)) = Some user_id ->
  next_fault w = false ->
  exists items w',
    serve (getUserMedia req) w
      = (Responded (http_response 200 (Json (JArr (map JObj items)))), w') /\
    Permutation items (where_userId (Some user_id) (media_docs w)) /\
    (forall d, In d items <->
               In d (media_docs w) /\ assoc_get "userId" d = Some (JStr user_id)) /\
    StronglySorted (desc "uploadedAt") items /\
    same_stores w w'.
Proof.
  intros Hu Hnf.
  exists (merge_sort (desc "uploadedAt") (where_userId (Some user_id) (media_docs w))).
  eexists. split.
  { unfold getUserMedia. rewrite Hu, query_run, Hnf. reflexivity. }
  split; [apply merge_sort_Permutation|].
  split; [|split; [apply StronglySorted_merge_sort; apply _ | apply after_call_same]].
  intros d. rewrite <- where_userId_In. split; apply Permutation_in.
  - apply merge_sort_Permutation.
  - symmetry. apply merge_sort_Permutation.
Qed.

Lemma getUserMedia_sorted_witness :
  exists items w',
    serve (getUserMedia (GET [("userId", "u1")])) world_u1
      = (Responded (http_response 200 (Json (JArr (map JObj items)))), w') /\
    (forall d, In d items <->
               In d [media_m1] /\ assoc_get "userId" d = Some (JStr "u1")).
Proof.
  destruct (getUserMedia_sorted (GET [("userId", "u1")]) "u1" world_u1 eq_refl eq_refl)
    as (items & w' & E & _ & Hin & _).
  exists items, w'. split; [exact E | exact Hin].
Defined.

(** X12: a query that the Document Store fails is not caught: getPosts,
    getAllPosts and getUserMedia end as an unhandled fault, a generic 500,
    and the stores are as before. *)
Theorem failed_query_is_unhandled req w :
  next_fault w = true ->
  (forall user_id,
      py_nonempty (assoc_get "userId" (params req)) = Some user_id ->
      fst (serve (getPosts req) w) = Unhandled ServiceError /\
      fst (serve (getUserMedia req) w) = Unhandled ServiceError) /\
  fst (serve (getAllPosts req) w) = Unhandled ServiceError /\
  status_of (Unhandled ServiceError) = 500.
Proof.
  intros Hf. split; [|split; [|reflexivity]].
  - intros user_id Hu. unfold getPosts, getUserMedia. rewrite Hu, !query_run, Hf.
    split; reflexivity.
  - unfold getAllPosts. rewrite query_run, Hf. reflexivity.
Qed.

Lemma failed_query_is_unhandled_witness :
  fst (serve (getAllPosts (GET [])) world_p1_failing) = Unhandled ServiceError.
Proof.
  apply (proj1 (proj2 (failed_query_is_unhandled (GET []) world_p1_failing eq_refl))).
Defined.

(** ** uploadMedia: partial failure *)

(** X13: uploadMedia does not compensate.  For an upload that passes the
    checks (non-empty userId, file part with a non-empty filename): when
    the blob upload fails nothing is stored; when the blob upload succeeds
    and the document write fails, the request ends as an unhandled fault
    with the blob stored and no media document written. *)
Theorem uploadMedia_partial_failure media_id now req user_id file w fs :
  py_nonempty (assoc_get "userId" (form req)) = Some user_id ->
  assoc_get "file" (files req) = Some file ->
  filename file <> "" ->
  (faults w = true :: fs ->
   exists w', serve (uploadMedia media_id now req) w = (Unhandled ServiceError, w') /\
              same_stores w w') /\
  (faults w = false :: true :: fs ->
   exists w', serve (uploadMedia media_id now req) w = (Unhandled ServiceError, w') /\
              blobs w' !! blob_name user_id media_id (filename file)
                = Some (blob_of file) /\
              media_docs w' = media_docs w /\ post_docs w' = post_docs w).
Proof.
  intros Hu Hf Hn.
  rewrite (uploadMedia_run _ _ _ _ _ _ Hu (py_file_Some _ _ Hf Hn)). cbv zeta.
  unfold next_fault. cbn [faults after_call set_faults log_call]. split; intros Hfs.
  - rewrite Hfs. cbn. eexists. split; [reflexivity | repeat split].
  - rewrite Hfs. cbn. eexists. split; [reflexivity|].
    split; [apply lookup_insert_eq | split; reflexivity].
Qed.

Lemma uploadMedia_partial_failure_witness :
  exists w',
    serve (uploadMedia "m1" "2024-05-01T10:00:00+00:00" upload_u1)
          (set_faults [false; true] empty_world) = (Unhandled ServiceError, w') /\
    blobs w' !! "u1/m1-a.png" = Some (blob_of a_png) /\
    media_docs w' = [].
Proof.
  destruct (uploadMedia_partial_failure "m1" "2024-05-01T10:00:00+00:00" upload_u1
              "u1" a_png (set_faults [false; true] empty_world) [] eq_refl eq_refl)
    as [_ Horphan].
  - discriminate.
  - destruct (Horphan eq_refl) as (w' & E & Hb & Hm & _).
    exists w'. split; [exact E|]. split; [exact Hb | exact Hm].
Defined.

(** ** Documents of other keys *)

Lemma remove_doc_app i pk l1 l2 :
  remove_doc i pk (l1 ++ l2) = remove_doc i pk l1 ++ remove_doc i pk l2.
Proof. unfold remove_doc. apply List.filter_app. Qed.

Lemma remove_doc_absent i pk docs :
  lookup_doc i pk docs = None -> remove_doc i pk docs = docs.
Proof.
  unfold lookup_doc, remove_doc. induction docs as [|d docs IH]; cbn; [reflexivity|].
  destruct (has_key i pk d); [discriminate|]. cbn. intros H. rewrite (IH H).
  reflexivity.
Qed.

Lemma lookup_doc_app i pk l1 l2 :
  lookup_doc i pk (l1 ++ l2) =
    match lookup_doc i pk l1 with
    | Some d => Some d
    | None => lookup_doc i pk l2
    end.
Proof.
  unfold lookup_doc. induction l1 as [|d l1 IH]; cbn; [reflexivity|].
  destruct (has_key i pk d); [reflexivity | exact IH].
Qed.

Lemma has_key_other i pk j pk' d :
  i <> j \/ pk <> pk' -> has_key i pk d = true -> has_key j pk' d = false.
Proof.
  intros Hne Hk. destruct (has_key j pk' d) eqn:Hk'; [|reflexivity].
  apply has_key_true in Hk as [H1 H2]. apply has_key_true in Hk' as [H3 H4].
  destruct Hne as [Hne|Hne]; congruence.
Qed.

Lemma lookup_doc_remove_other i pk j pk' docs :
  i <> j \/ pk <> pk' ->
  lookup_doc i pk (remove_doc j pk' docs) = lookup_doc i pk docs.
Proof.
  intros Hne. unfold lookup_doc, remove_doc.
  induction docs as [|d docs IH]; cbn; [reflexivity|].
  destruct (has_key i pk d) eqn:Hk.
  - rewrite (has_key_other _ _ _ _ _ Hne Hk). cbn. rewrite Hk. reflexivity.
  - destruct (has_key j pk' d); cbn; [exact IH|]. rewrite Hk. exact IH.
Qed.

Lemma has_key_media_item media_id now user_id file :
  has_key media_id (JStr user_id) (media_item media_id now user_id file) = true.
Proof. cbn. rewrite !String.eqb_refl. reflexivity. Qed.

Lemma has_key_post_doc post_id uid title caption refs now :
  has_key post_id uid (post_doc post_id uid title caption refs now) = true ->
  lookup_doc post_id uid [post_doc post_id uid title caption refs now]
    = Some (post_doc post_id uid title caption refs now).
Proof. intros H. unfold lookup_doc. cbn [List.find]. rewrite H. reflexivity. Qed.

(** The stores after a served upload. *)
Lemma uploadMedia_served media_id now req user_id file w :
  py_nonempty (assoc_get "userId" (form req)) = Some user_id ->
  py_file (assoc_get "file" (files req)) = Some file ->
  no_fault w ->
  exists w1,
    serve (uploadMedia media_id now req) w
      = (Responded (http_response 201
                      (Json (JObj (media_item media_id now user_id file)))), w1) /\
    media_docs w1 = remove_doc media_id (JStr user_id) (media_docs w)
                      ++ [media_item media_id now user_id file] /\
    blobs w1 = <[blob_name user_id media_id (filename file) := blob_of file]> (blobs w) /\
    post_docs w1 = post_docs w /\
    no_fault w1.
Proof.
  intros Hu Hf Hnf. rewrite (uploadMedia_run _ _ _ _ _ _ Hu Hf). cbv zeta.
  rewrite (no_fault_next _ Hnf).
  pose proof (no_fault_after (upload_blob_call (blob_name user_id media_id (filename file)))
                w Hnf) as Hnf1.
  rewrite (no_fault_next _ Hnf1).
  eexists. split; [reflexivity|]. repeat split.
  unfold no_fault in *.
  cbn [faults set_container set_blobs after_call set_faults log_call] in *.
  destruct (tl (faults w)) as [|b fs]; [constructor|].
  inversion Hnf1; subst. assumption.
Qed.

Lemma lookup_after_upload media_id now user_id file docs :
  lookup_doc media_id (JStr user_id)
    (remove_doc media_id (JStr user_id) docs ++ [media_item media_id now user_id file])
    = Some (media_item media_id now user_id file).
Proof. apply lookup_doc_upserted, has_key_media_item. Qed.

(** ** uploadMedia composed with the other handlers *)

(** X14: after a served upload (non-empty userId, file part with a
    non-empty filename, no store failure), getUserMedia of the same user
    lists the new MediaItem, and a deleteMedia of its id that meets no store
    failure answers 204; when the id and the blob name were free before the
    upload, upload followed by delete leaves documents and blobs as they
    were. *)
Theorem upload_then_list_and_delete media_id now req user_id file w dreq :
  py_nonempty (assoc_get "userId" (form req)) = Some user_id ->
  assoc_get "file" (files req) = Some file ->
  filename file <> "" ->
  no_fault w ->
  py_nonempty (assoc_get "userId" (params dreq)) = Some user_id ->
  py_nonempty (assoc_get "mediaId" (params dreq)) = Some media_id ->
  let w1 := snd (serve (uploadMedia media_id now req) w) in
  (exists items w2,
     serve (getUserMedia dreq) w1
       = (Responded (http_response 200 (Json (JArr (map JObj items)))), w2) /\
     In (media_item media_id now user_id file) items) /\
  (exists w2,
     serve (deleteMedia dreq) w1 = (Responded (http_response 204 NoBody), w2) /\
     lookup_doc media_id (JStr user_id) (media_docs w2) = None /\
     (lookup_doc media_id (JStr user_id) (media_docs w) = None ->
      blobs w !! blob_name user_id media_id (filename file) = None ->
      same_stores w w2)).
Proof.
  intros Hu Hf Hname Hnf Hdu Hdm. cbv zeta.
  destruct (uploadMedia_served media_id now req user_id file w Hu
              (py_file_Some _ _ Hf Hname) Hnf)
    as (w1 & E & Hm1 & Hb1 & Hp1 & Hnf1).
  rewrite E. cbn [snd]. split.
  - exists (merge_sort (desc "uploadedAt") (where_userId (Some user_id) (media_docs w1))).
    eexists. split.
    { unfold getUserMedia. rewrite Hdu, query_run, (no_fault_next _ Hnf1). reflexivity. }
    eapply Permutation_in; [symmetry; apply merge_sort_Permutation|].
    apply where_userId_In. split; [|reflexivity].
    rewrite Hm1. apply in_or_app. right. left. reflexivity.
  - destruct (deleteMedia_deletable dreq user_id media_id w1 Hdu Hdm Hnf1)
      as (w2 & E2 & Hm2 & Hp2).
    { exists (media_item media_id now user_id file),
             (blob_name user_id media_id (filename file)).
      rewrite Hm1, Hb1. split; [apply lookup_after_upload|].
      split; [reflexivity|].
      apply py_nonempty_Some in Hu as [_ Hne].
      split; [apply blob_name_nonempty, Hne|].
      eexists. apply lookup_insert_eq. }
    exists w2. split; [exact E2|]. split.
    { rewrite Hm2. apply lookup_remove_doc. }
    intros Hfresh Hfree.
    pose proof (deleteMedia_effect _ _ _ _ E2) as (_ & r & Hr & Hcases).
    inversion Hr; subst r; clear Hr.
    destruct Hcases as [[Hst _]|[_ Hdel]].
    { cbn in Hst. destruct Hst as [H|[H|H]]; discriminate. }
    destruct Hdel as (u & m & d & n & Hu' & Hm' & Hl & Hn & _ & _ & _ & Hb2).
    rewrite Hdu in Hu'. rewrite Hdm in Hm'. inversion Hu'; inversion Hm'; subst u m.
    rewrite Hm1, lookup_after_upload in Hl. inversion Hl; subst d.
    cbn in Hn. inversion Hn; subst n.
    repeat split.
    + rewrite Hm2, Hm1, remove_doc_app, (remove_doc_absent _ _ _ Hfresh).
      rewrite (remove_doc_absent _ _ _ Hfresh).
      unfold remove_doc. cbn [List.filter]. rewrite has_key_media_item. cbn.
      apply app_nil_r.
    + rewrite Hp2. exact Hp1.
    + rewrite Hb2, Hb1, delete_insert_eq. apply delete_id. exact Hfree.
Qed.

Lemma upload_then_list_and_delete_witness :
  exists w2,
    serve (deleteMedia delete_m1)
          (snd (serve (uploadMedia "m1" "2024-05-01T10:00:00+00:00" upload_u1) empty_world))
      = (Responded (http_response 204 NoBody), w2) /\
    same_stores empty_world w2.
Proof.
  destruct (upload_then_list_and_delete "m1" "2024-05-01T10:00:00+00:00" upload_u1 "u1"
              a_png empty_world delete_m1 eq_refl eq_refl)
    as [_ (w2 & E & _ & Hsame)].
  - discriminate.
  - constructor.
  - reflexivity.
  - reflexivity.
  - exists w2. split; [exact E|]. apply Hsame; reflexivity.
Defined.

(** X15: after a served upload by a user (non-empty userId, file part with
    a non-empty filename, no store failure), a createPost of that user that
    references the new id is answered 201 with the MediaRef of the upload
    (its blob name and content type); a createPost of another user, who
    owns no media of that id, is answered 404 and writes no Post. *)
Theorem upload_then_createPost media_id now req user_id file w post_id now' preq body :
  py_nonempty (assoc_get "userId" (form req)) = Some user_id ->
  assoc_get "file" (files req) = Some file ->
  filename file <> "" ->
  no_fault w ->
  json_body preq = Some (JObj body) ->
  py_iter (dict_get "media" (JArr []) body) = Some [JStr media_id] ->
  let w1 := snd (serve (uploadMedia media_id now req) w) in
  (dict_get "userId" JNull body = JStr user_id ->
   lookup_doc post_id (JStr user_id) (post_docs w) = None ->
   exists w2,
     serve (createPost post_id now' preq) w1
       = (Responded (http_response 201 (Json (JObj
            (post_doc post_id (JStr user_id) (dict_get "title" JNull body)
               (dict_get "caption" (JStr "") body)
               [JObj [ ("mediaId", JStr media_id);
                       ("blobName", JStr (blob_name user_id media_id (filename file)));
                       ("contentType", JStr (content_type file)) ]]
               now')))), w2)) /\
  (dict_get "userId" JNull body <> JStr user_id ->
   owned w (dict_get "userId" JNull body) (JStr media_id) = None ->
   exists w2,
     serve (createPost post_id now' preq) w1
       = (Responded (http_response 404
            (FText "media not found or not owned by user: " (JStr media_id))), w2) /\
     post_docs w2 = post_docs w).
Proof.
  intros Hu Hf Hn Hnf Hb Hi. cbv zeta.
  destruct (uploadMedia_served media_id now req user_id file w Hu
              (py_file_Some _ _ Hf Hn) Hnf)
    as (w1 & E & Hm1 & Hb1 & Hp1 & Hnf1).
  rewrite E. cbn [snd]. split.
  - intros Huid Hfresh.
    destruct (createPost_created post_id now' preq body [JStr media_id]
                [media_item media_id now user_id file] w1 Hb Hi)
      as (w2 & E2 & _).
    + constructor; [|constructor]. rewrite Huid. split; [|discriminate].
      cbn [owned]. rewrite Hm1. apply lookup_after_upload.
    + exact Hnf1.
    + rewrite Huid, Hp1. exact Hfresh.
    + exists w2. rewrite E2, Huid. reflexivity.
  - intros Hother Hnot.
    unfold serve. rewrite (createPost_loop _ _ _ _ _ _ Hb Hi). unfold bind.
    destruct (load_media_missing (dict_get "userId" JNull body) (JStr media_id) [] [] w1)
      as (w2 & E2 & (_ & Hp2 & _)).
    + cbn [owned] in *. rewrite Hm1, lookup_doc_app.
      rewrite lookup_doc_remove_other; [|right; exact Hother].
      rewrite Hnot. unfold lookup_doc. cbn [List.find].
      destruct (has_key media_id (dict_get "userId" JNull body)
                  (media_item media_id now user_id file)) eqn:Hk; [|reflexivity].
      apply has_key_true in Hk as [_ Hk]. cbn in Hk. congruence.
    + rewrite E2. exists w2. split; [reflexivity|]. rewrite Hp2. exact Hp1.
Qed.

Lemma upload_then_createPost_witness :
  (exists w2,
     serve (createPost "p1" "2024-05-02T09:00:00+00:00" (POST_json (JObj post_m1_u1)))
           (snd (serve (uploadMedia "m1" "2024-05-01T10:00:00+00:00" upload_u1)
                   empty_world))
       = (Responded (http_response 201 (Json (JObj
            (post_doc "p1" (JStr "u1") (JStr "T") (JStr "")
               [JObj [ ("mediaId", JStr "m1");
                       ("blobName", JStr "u1/m1-a.png");
                       ("contentType", JStr "image/png") ]]
               "2024-05-02T09:00:00+00:00")))), w2)) /\
  (exists w2,
     serve (createPost "p1" "2024-05-02T09:00:00+00:00"
              (POST_json (JObj [("userId", JStr "u2"); ("media", JArr [JStr "m1"])])))
           (snd (serve (uploadMedia "m1" "2024-05-01T10:00:00+00:00" upload_u1)
                   empty_world))
       = (Responded (http_response 404
            (FText "media not found or not owned by user: " (JStr "m1"))), w2) /\
     post_docs w2 = []).
Proof.
  split.
  - assert (Hn : filename a_png <> "") by discriminate.
    apply (proj1 (upload_then_createPost "m1" "2024-05-01T10:00:00+00:00" upload_u1
                    "u1" a_png empty_world "p1" "2024-05-02T09:00:00+00:00"
                    (POST_json (JObj post_m1_u1)) post_m1_u1
                    eq_refl eq_refl Hn (List.Forall_nil _) eq_refl eq_refl));
      reflexivity.
  - assert (Hn : filename a_png <> "") by discriminate.
    apply (proj2 (upload_then_createPost "m1" "2024-05-01T10:00:00+00:00" upload_u1
                    "u1" a_png empty_world "p1" "2024-05-02T09:00:00+00:00"
                    (POST_json (JObj [("userId", JStr "u2"); ("media", JArr [JStr "m1"])]))
                    [("userId", JStr "u2"); ("media", JArr [JStr "m1"])]
                    eq_refl eq_refl Hn (List.Forall_nil _) eq_refl eq_refl)).
    + discriminate.
    + reflexivity.
Defined.

(** ** createPost composed with getPosts and deletePost *)

(** X16: a Post that createPost stored with answer 201 for a non-empty
    string userId is listed by getPosts of that user and by getAllPosts;
    a deletePost of (userId, post id) that is served answers 204 and leaves
    the post collection as it was before the createPost. *)
Theorem createPost_then_list_and_delete post_id now req w post w1 user_id qreq :
  serve (createPost post_id now req) w
    = (Responded (http_response 201 (Json (JObj post))), w1) ->
  assoc_get "userId" post = Some (JStr user_id) ->
  py_nonempty (assoc_get "userId" (params qreq)) = Some user_id ->
  next_fault w1 = false ->
  (exists items w2,
     serve (getPosts qreq) w1
       = (Responded (http_response 200 (Json (JArr (map JObj items)))), w2) /\
     In post items) /\
  (exists items w2,
     serve (getAllPosts qreq) w1
       = (Responded (http_response 200 (Json (JArr (map JObj items)))), w2) /\
     In post items) /\
  (py_nonempty (assoc_get "postId" (params qreq)) = Some post_id ->
   exists w2,
     serve (deletePost qreq) w1 = (Responded (http_response 204 NoBody), w2) /\
     post_docs w2 = post_docs w).
Proof.
  intros E Hpu Hq Hnf.
  apply createPost_effect in E as (_ & _ & [[Hst _]|Hcreated]).
  { exfalso. apply Hst. reflexivity. }
  destruct Hcreated as (body & refs & Hb & Hfresh & Ho & Hp1). cbv zeta in Ho, Hp1.
  inversion Ho; subst post; clear Ho.
  cbn in Hpu. inversion Hpu as [Huid]; clear Hpu. rewrite Huid in *.
  assert (Hin : In (post_doc post_id (JStr user_id) (dict_get "title" JNull body)
                      (dict_get "caption" (JStr "") body) refs now) (post_docs w1)).
  { rewrite Hp1. apply in_or_app. right. left. reflexivity. }
  split; [|split].
  - exists (merge_sort (desc "createdAt") (where_userId (Some user_id) (post_docs w1))).
    eexists. split.
    { unfold getPosts. rewrite Hq, query_run, Hnf. reflexivity. }
    eapply Permutation_in; [symmetry; apply merge_sort_Permutation|].
    apply where_userId_In. split; [exact Hin | reflexivity].
  - exists (merge_sort (desc "createdAt") (post_docs w1)). eexists. split.
    { unfold getAllPosts. rewrite query_run, Hnf. reflexivity. }
    eapply Permutation_in; [symmetry; apply merge_sort_Permutation | exact Hin].
  - intros Hpid. rewrite (deletePost_run _ _ _ _ Hq Hpid). cbv zeta.
    rewrite Hnf, Hp1, lookup_doc_app, Hfresh.
    assert (Hk : has_key post_id (JStr user_id)
                   (post_doc post_id (JStr user_id) (dict_get "title" JNull body)
                      (dict_get "caption" (JStr "") body) refs now) = true).
    { cbn. rewrite !String.eqb_refl. reflexivity. }
    rewrite (has_key_post_doc _ _ _ _ _ _ Hk).
    eexists. split; [reflexivity|]. cbn [post_docs set_container].
    rewrite remove_doc_app, (remove_doc_absent _ _ _ Hfresh).
    unfold remove_doc at 1. cbn [List.filter]. rewrite Hk. cbn. apply app_nil_r.
Qed.

Lemma createPost_then_list_and_delete_witness :
  exists w2,
    serve (deletePost delete_p1)
          (snd (serve (createPost "p1" "2024-05-02T09:00:00+00:00"
                         (POST_json (JObj post_m1_u1))) world_u1))
      = (Responded (http_response 204 NoBody), w2) /\
    post_docs w2 = [].
Proof.
  destruct (createPost_then_list_and_delete "p1" "2024-05-02T09:00:00+00:00"
              (POST_json (JObj post_m1_u1)) world_u1 _ _ "u1" delete_p1
              eq_refl eq_refl eq_refl eq_refl) as (_ & _ & Hdel).
  apply Hdel. reflexivity.
Defined.

(** ** Blob names *)

Lemma append_inj_l a x y : a +:+ x = a +:+ y -> x = y.
Proof.
  induction a as [|c a IH]; cbn; [auto|]. intros H. inversion H. auto.
Qed.

Lemma append_inj_length a b x y :
  String.length a = String.length b -> a +:+ x = b +:+ y -> a = b /\ x = y.
Proof.
  revert b. induction a as [|c a IH]; intros [|c' b]; cbn; try discriminate.
  - auto.
  - intros Hlen H. inversion H; subst. inversion Hlen as [Hlen'].
    destruct (IH b Hlen' H2) as [-> ->]. auto.
Qed.

Lemma blob_name_inj user_id id1 id2 f1 f2 :
  String.length id1 = String.length id2 ->
  blob_name user_id id1 f1 = blob_name user_id id2 f2 -> id1 = id2 /\ f1 = f2.
Proof.
  intros Hlen H. unfold blob_name in H. apply append_inj_l in H.
  cbn in H. inversion H as [H'].
  apply (append_inj_length _ _ _ _ Hlen) in H' as [-> H'].
  cbn in H'. inversion H'. auto.
Qed.

(** X17: an upload never clobbers an earlier upload of the same user made
    under another generated id of the same length (the ids are UUID
    strings): whatever its outcome, the earlier media document and the
    earlier blob are still stored. *)
Theorem upload_keeps_earlier_upload id1 now1 file1 id2 now2 req user_id file2 w :
  py_nonempty (assoc_get "userId" (form req)) = Some user_id ->
  assoc_get "file" (files req) = Some file2 ->
  String.length id1 = String.length id2 -> id1 <> id2 ->
  lookup_doc id1 (JStr user_id) (media_docs w) = Some (media_item id1 now1 user_id file1) ->
  blobs w !! blob_name user_id id1 (filename file1) = Some (blob_of file1) ->
  let w' := snd (serve (uploadMedia id2 now2 req) w) in
  lookup_doc id1 (JStr user_id) (media_docs w') = Some (media_item id1 now1 user_id file1) /\
  blobs w' !! blob_name user_id id1 (filename file1) = Some (blob_of file1).
Proof.
  intros Hu Hf Hlen Hne Hdoc Hblob. cbv zeta.
  destruct (String.eqb (filename file2) "") eqn:Hn.
  { unfold serve, uploadMedia. rewrite Hu, Hf. cbn [py_file]. rewrite Hn.
    split; assumption. }
  assert (Hf' : py_file (assoc_get "file" (files req)) = Some file2).
  { rewrite Hf. cbn [py_file]. rewrite Hn. reflexivity. }
  rewrite (uploadMedia_run _ _ _ _ _ _ Hu Hf'). cbv zeta.
  assert (Hnames : blob_name user_id id2 (filename file2)
                   <> blob_name user_id id1 (filename file1)).
  { intros H. apply blob_name_inj in H as [H _]; [|symmetry; exact Hlen]. congruence. }
  destruct (next_fault w); [split; assumption|].
  destruct (next_fault _); cbn [snd media_docs blobs set_container set_blobs after_call
                                  set_faults log_call].
  - split; [exact Hdoc|]. rewrite lookup_insert_ne; [exact Hblob | exact Hnames].
  - split.
    + rewrite lookup_doc_app, lookup_doc_remove_other; [|left; exact Hne].
      rewrite Hdoc. reflexivity.
    + rewrite lookup_insert_ne; [exact Hblob | exact Hnames].
Qed.

Lemma upload_keeps_earlier_upload_witness :
  let w' := snd (serve (uploadMedia "m2" "2024-05-04T10:00:00+00:00" upload_b_u1)
                   world_u1) in
  lookup_doc "m1" (JStr "u1") (media_docs w') = Some media_m1 /\
  blobs w' !! "u1/m1-a.png" = Some (blob_of a_png).
Proof.
  apply (upload_keeps_earlier_upload "m1" "2024-05-01T10:00:00+00:00" a_png
           "m2" "2024-05-04T10:00:00+00:00" upload_b_u1 "u1" b_txt world_u1);
    try reflexivity.
  discriminate.
Defined.

(** ** createPost without userId and title *)

(** A body that parsed is answered 201 or 404, or ends unhandled. *)
Lemma createPost_status post_id now req b w o w' :
  json_body req = Some b ->
  serve (createPost post_id now req) w = (o, w') ->
  status_of o = 201 \/ status_of o = 404 \/ exists e, o = Unhandled e.
Proof.
  intros Hb.
  destruct b as [| | | | |body];
    try (unfold serve, createPost; rewrite Hb; cbn; intros H; inversion H; subst;
         right; right; eexists; reflexivity).
  destruct (py_iter (dict_get "media" (JArr []) body)) as [ms|] eqn:Hi.
  - intros E.
    destruct (createPost_cases _ _ _ _ _ _ _ _ Hb Hi E)
      as [[_ [(m & _ & ->)|[[-> _]|(_ & e & ->)]]]|(docs & _ & -> & _)]; cbn; eauto.
  - rewrite (createPost_obj _ _ _ _ Hb). unfold serve, bind. rewrite Hi.
    destruct (py_truthy (dict_get "media" (JArr []) body)).
    + cbn. intros H; inversion H; subst. right; right; eexists; reflexivity.
    + unfold ret. rewrite write_post_refs.
      destruct (next_fault w);
        [intros H; inversion H; subst; right; right; eexists; reflexivity|].
      destruct (lookup_doc post_id (dict_get "userId" JNull body) (post_docs w));
        intros H; inversion H; subst; cbn; eauto.
Qed.

(** A 201 means that the media value let the loop run to its end. *)
Lemma createPost_201_media post_id now req body w r w' :
  json_body req = Some (JObj body) ->
  serve (createPost post_id now req) w = (Responded r, w') ->
  status_code r = 201 ->
  media_loads w (dict_get "userId" JNull body) (dict_get "media" (JArr []) body).
Proof.
  intros Hb E Hst. unfold media_loads.
  destruct (py_truthy (dict_get "media" (JArr []) body)) eqn:Ht; [|left; reflexivity].
  right.
  destruct (py_iter (dict_get "media" (JArr []) body)) as [ms|] eqn:Hi.
  - destruct (createPost_cases _ _ _ _ _ _ _ _ Hb Hi E)
      as [[_ [(m & _ & Ho)|[[Ho _]|(_ & e & Ho)]]]|(docs & HF & _)];
      try discriminate.
    + inversion Ho; subst r. cbn in Hst. discriminate.
    + exists ms, docs. split; [reflexivity | exact HF].
  - exfalso. revert E. rewrite (createPost_obj _ _ _ _ Hb).
    unfold serve, bind. rewrite Ht, Hi. cbn. discriminate.
Qed.

(** C7 (as amended): createPost answers no 400 to a body that is valid
    JSON.  For a body that is an object without userId and title, when no
    store call fails and the generated id is free: if the media value is
    absent or falsy, or each element it iterates passes the lookup in the
    partition of the null userId with a record that carries a blobName, the
    Post is created with null for both fields and the answer is 201;
    otherwise the answer is 404 or an unhandled fault and no Post is
    written. *)
Theorem createPost_absent_userId_title post_id now req b w :
  json_body req = Some b ->
  status_of (fst (serve (createPost post_id now req) w)) <> 400 /\
  (forall body,
      b = JObj body ->
      assoc_get "userId" body = None -> assoc_get "title" body = None ->
      no_fault w ->
      lookup_doc post_id JNull (post_docs w) = None ->
      (media_loads w JNull (dict_get "media" (JArr []) body) ->
       exists post w',
         serve (createPost post_id now req) w
           = (Responded (http_response 201 (Json (JObj post))), w') /\
         assoc_get "userId" post = Some JNull /\
         assoc_get "title" post = Some JNull /\
         post_docs w' = post_docs w ++ [post]) /\
      (~ media_loads w JNull (dict_get "media" (JArr []) body) ->
       exists o w',
         serve (createPost post_id now req) w = (o, w') /\
         (status_of o = 404 \/ exists e, o = Unhandled e) /\
         post_docs w' = post_docs w)).
Proof.
  intros Hb. split; [exact (createPost_no_400 _ _ _ _ _ Hb)|].
  intros body -> Hu Ht Hnf Hfresh.
  assert (Eu : dict_get "userId" JNull body = JNull)
    by (unfold dict_get; rewrite Hu; reflexivity).
  assert (Et : dict_get "title" JNull body = JNull)
    by (unfold dict_get; rewrite Ht; reflexivity).
  split.
  - intros [Hfalsy|(ms & docs & Hi & HF)].
    + rewrite (createPost_obj _ _ _ _ Hb). unfold serve, bind. rewrite Hfalsy.
      unfold ret. rewrite write_post_refs, (no_fault_next _ Hnf), Eu, Et, Hfresh.
      eexists; eexists. split; [reflexivity|]. repeat split.
    + destruct (createPost_created post_id now req body ms docs w Hb Hi) as (w' & E & Hp).
      * rewrite Eu. exact HF.
      * exact Hnf.
      * rewrite Eu. exact Hfresh.
      * rewrite Eu, Et in E, Hp. eexists; exists w'.
        split; [exact E|]. split; [reflexivity|]. split; [reflexivity | exact Hp].
  - intros Hno.
    destruct (serve (createPost post_id now req) w) as [o w'] eqn:E.
    exists o, w'. split; [reflexivity|].
    pose proof (createPost_effect _ _ _ _ _ _ E) as (_ & _ & [[Hst Hp]|Hcreated]).
    + split; [|exact Hp].
      destruct (createPost_status _ _ _ _ _ _ _ Hb E) as [H|[H|H]];
        [contradiction | left; exact H | right; exact H].
    + exfalso. apply Hno.
      destruct Hcreated as (body' & refs & Hb' & _ & Ho & _). cbv zeta in Ho. subst o.
      rewrite <- Eu. eapply createPost_201_media; [exact Hb | exact E | reflexivity].
Qed.

Lemma createPost_absent_userId_title_witness :
  (exists post w',
     serve (createPost "p1" "2024-05-02T09:00:00+00:00"
              (POST_json (JObj [("caption", JStr "hello"); ("media", JNull)])))
           empty_world
       = (Responded (http_response 201 (Json (JObj post))), w') /\
     assoc_get "userId" post = Some JNull /\
     assoc_get "title" post = Some JNull /\
     post_docs w' = post_docs empty_world ++ [post]) /\
  (exists o w',
     serve (createPost "p1" "2024-05-02T09:00:00+00:00"
              (POST_json (JObj [("media", JNum 7)]))) empty_world = (o, w') /\
     (status_of o = 404 \/ exists e, o = Unhandled e) /\
     post_docs w' = post_docs empty_world).
Proof.
  split.
  - destruct (createPost_absent_userId_title "p1" "2024-05-02T09:00:00+00:00"
                (POST_json (JObj [("caption", JStr "hello"); ("media", JNull)]))
                (JObj [("caption", JStr "hello"); ("media", JNull)]) empty_world eq_refl)
      as [_ Hobj].
    destruct (Hobj [("caption", JStr "hello"); ("media", JNull)]
                eq_refl eq_refl eq_refl (List.Forall_nil _) eq_refl) as [Hcreated _].
    apply Hcreated. left. reflexivity.
  - destruct (createPost_absent_userId_title "p1" "2024-05-02T09:00:00+00:00"
                (POST_json (JObj [("media", JNum 7)]))
                (JObj [("media", JNum 7)]) empty_world eq_refl)
      as [_ Hobj].
    destruct (Hobj [("media", JNum 7)]
                eq_refl eq_refl eq_refl (List.Forall_nil _) eq_refl) as [_ Hfails].
    apply Hfails. intros [H|(ms & docs & H & _)]; discriminate.
Defined.

(** ** Deleting twice *)

(** C8: a deletePost (a deleteMedia) that answers 204 has deleted its
    target: the document it found is no longer stored (nor is the blob, for
    deleteMedia).  The same call again, whatever the store does, answers
    404 and changes no store, so the target stays deleted. *)
Theorem delete_again_404 req w w1 :
  (serve (deletePost req) w = (Responded (http_response 204 NoBody), w1) ->
   exists user_id post_id,
     py_nonempty (assoc_get "userId" (params req)) = Some user_id /\
     py_nonempty (assoc_get "postId" (params req)) = Some post_id /\
     lookup_doc post_id (JStr user_id) (post_docs w) <> None /\
     lookup_doc post_id (JStr user_id) (post_docs w1) = None /\
     forall fs, exists w2,
       serve (deletePost req) (set_faults fs w1)
         = (Responded (http_response 404 (Text "Post not found")), w2) /\
       same_stores w1 w2) /\
  (serve (deleteMedia req) w = (Responded (http_response 204 NoBody), w1) ->
   exists user_id media_id n,
     py_nonempty (assoc_get "userId" (params req)) = Some user_id /\
     py_nonempty (assoc_get "mediaId" (params req)) = Some media_id /\
     (exists d, lookup_doc media_id (JStr user_id) (media_docs w) = Some d /\
                assoc_get "blobName" d = Some (JStr n)) /\
     is_Some (blobs w !! n) /\
     lookup_doc media_id (JStr user_id) (media_docs w1) = None /\
     blobs w1 !! n = None /\
     forall fs, exists w2,
       serve (deleteMedia req) (set_faults fs w1)
         = (Responded (http_response 404 (Text "media not found")), w2) /\
       same_stores w1 w2).
Proof.
  split; intros E.
  - apply deletePost_effect in E as (_ & _ & r & Hr & [[[H|H] _]|[_ Hdel]]);
      try (inversion Hr; subst r; cbn in H; discriminate).
    destruct Hdel as (user_id & post_id & p & Hu & Hp & Hl & Hposts).
    exists user_id, post_id. split; [exact Hu|]. split; [exact Hp|].
    split; [rewrite Hl; discriminate|].
    assert (Hgone : lookup_doc post_id (JStr user_id) (post_docs w1) = None)
      by (rewrite Hposts; apply lookup_remove_doc).
    split; [exact Hgone|]. intros fs.
    rewrite (deletePost_run _ _ _ _ Hu Hp). cbv zeta.
    change (post_docs (set_faults fs w1)) with (post_docs w1). rewrite Hgone.
    destruct (next_fault (set_faults fs w1)); eexists; (split; [reflexivity|]);
      repeat split.
  - apply deleteMedia_effect in E as (_ & r & Hr & [[Hst _]|[_ Hdel]]).
    { inversion Hr; subst r. cbn in Hst. destruct Hst as [H|[H|H]]; discriminate. }
    destruct Hdel as (user_id & media_id & d & n & Hu & Hm & Hl & Hn & _ & Hbl & Hmd & Hb).
    exists user_id, media_id, n. split; [exact Hu|]. split; [exact Hm|].
    split; [exists d; split; assumption|]. split; [exact Hbl|].
    assert (Hgone : lookup_doc media_id (JStr user_id) (media_docs w1) = None)
      by (rewrite Hmd; apply lookup_remove_doc).
    split; [exact Hgone|]. split; [rewrite Hb; apply lookup_delete_eq|].
    intros fs. rewrite (deleteMedia_run _ _ _ _ Hu Hm). cbv zeta.
    change (media_docs (set_faults fs w1)) with (media_docs w1). rewrite Hgone.
    destruct (next_fault (set_faults fs w1)); eexists; (split; [reflexivity|]);
      repeat split.
Qed.

Lemma delete_again_404_witness :
  (exists w2,
     serve (deletePost delete_p1)
           (set_faults [] (snd (serve (deletePost delete_p1) (set_faults [] world_p1_failing))))
       = (Responded (http_response 404 (Text "Post not found")), w2) /\
     post_docs w2 = []) /\
  (exists w2,
     serve (deleteMedia delete_m1)
           (set_faults [true] (snd (serve (deleteMedia delete_m1) world_u1)))
       = (Responded (http_response 404 (Text "media not found")), w2) /\
     media_docs w2 = [] /\ blobs w2 !! "u1/m1-a.png" = None).
Proof.
  split.
  - destruct (proj1 (delete_again_404 delete_p1 (set_faults [] world_p1_failing)
                       (snd (serve (deletePost delete_p1)
                               (set_faults [] world_p1_failing)))) eq_refl)
      as (user_id & post_id & _ & _ & _ & _ & Hagain).
    destruct (Hagain []) as (w2 & E & (_ & Hp & _)).
    exists w2. split; [exact E|]. rewrite Hp. reflexivity.
  - destruct (proj2 (delete_again_404 delete_m1 world_u1
                       (snd (serve (deleteMedia delete_m1) world_u1))) eq_refl)
      as (user_id & media_id & n & _ & _ & _ & _ & _ & _ & Hagain).
    destruct (Hagain [true]) as (w2 & E & (Hm & _ & Hb)).
    exists w2. split; [exact E|]. rewrite Hm, Hb. split; reflexivity.
Defined.
